(** * ngtsio: selector resolution and post-processing of [ngtsio_get.py]

    A shallow embedding of the selector-resolution functions
    ([get_obj_inds], [get_indobjs_from_objids], [get_objids_from_indobjs],
    [objid_6digit]), the range expanders ([get_time_date_from_range],
    [get_time_actionid_from_range]), the two reader back ends
    ([pyfits_get_data], [fitsio_get_data]), the post-processors
    ([set_nan_dic], [simplify_dic]) and the driver [get], followed by the
    properties of the specification proved (or refuted) on them.

    Conventions of the embedding
    - the module is Python 2 code ([unicode], [collections.Sequence], list
      returning [map]); Python [str] values are [string], Python [int]
      values are [Z], lists and one-dimensional numpy arrays are [list];
    - numpy string arrays are lists of strings; the fixed item width of
      such an array is represented where [objid_6digit] stores into the
      array made from a list of identifiers ([objid_6digit_array]), the
      columns read from the files are taken to be wide enough;
    - a call that ends in [sys.exit] or in an uncaught exception is an
      [Exit] or a [Raise] outcome, [warnings.warn] appends to a log;
    - dictionaries are [gmap string _]. *)

From Stdlib Require Import ZArith QArith List Ascii String Lia.
From stdpp Require Import base option list gmap strings sorting fin_maps.

Local Open Scope string_scope.
Local Open Scope list_scope.
Local Open Scope Z_scope.

(** ** Outcomes: normal return, [sys.exit], uncaught exception *)

Inductive outcome (A : Type) : Type :=
  | Ok (a : A)
  | Exit (msg : string)
  | Raise (exn : string).
Arguments Ok {A} a.
Arguments Exit {A} msg.
Arguments Raise {A} exn.

Definition outcome_bind {A B} (f : A -> outcome B) (m : outcome A) : outcome B :=
  match m with
  | Ok a => f a
  | Exit msg => Exit msg
  | Raise e => Raise e
  end.

#[global] Instance outcome_ret : MRet outcome := fun A a => Ok a.
#[global] Instance outcome_mbind : MBind outcome := fun A B f m => outcome_bind f m.
#[global] Instance outcome_fmap : FMap outcome :=
  fun A B f m => outcome_bind (fun a => Ok (f a)) m.

(** A loop that threads a state and may raise. *)
Fixpoint outcome_foldM {A S} (f : S -> A -> outcome S) (s : S) (l : list A)
  : outcome S :=
  match l with
  | [] => Ok s
  | x :: l' => s' ← f s x; outcome_foldM f s' l'
  end.

(** [[f(x) for x in l]] where [f] may raise: the first failure wins. *)
Fixpoint outcome_mapM {A B} (f : A -> outcome B) (l : list A) : outcome (list B) :=
  match l with
  | [] => Ok []
  | x :: l' => y ← f x; ys ← outcome_mapM f l'; Ok (y :: ys)
  end.

Definition of_option {A} (exn : string) (o : option A) : outcome A :=
  match o with Some a => Ok a | None => Raise exn end.

(** ** Strings *)

Module PyStr.

(** [s.strip()], [np.char.strip(s)]: leading and trailing white space
    removed. *)
Fixpoint lstrip (s : string) : string :=
  match s with
  | String a s' => if Ascii.is_space a then lstrip s' else s
  | EmptyString => EmptyString
  end.

Definition rstrip (s : string) : string :=
  String.rev (lstrip (String.rev s)).

Definition strip (s : string) : string := rstrip (lstrip s).

(** [s[:n]] *)
Fixpoint take (n : nat) (s : string) : string :=
  match n, s with
  | S n', String a s' => String a (take n' s')
  | _, _ => EmptyString
  end.

(** [s[n:]] *)
Fixpoint drop (n : nat) (s : string) : string :=
  match n, s with
  | S n', String _ s' => drop n' s'
  | _, _ => s
  end.

(** [s.split(sep)] for a one-character separator. *)
Fixpoint split_go (sep : ascii) (cur : string) (s : string) : list string :=
  match s with
  | EmptyString => [String.rev cur]
  | String a s' =>
      if Ascii.eqb a sep then String.rev cur :: split_go sep EmptyString s'
      else split_go sep (String a cur) s'
  end.
Definition split (sep : ascii) (s : string) : list string :=
  split_go sep EmptyString s.

(** [s.replace(a, b)] for one-character [a] and [b]. *)
Fixpoint replace (a b : ascii) (s : string) : string :=
  match s with
  | EmptyString => EmptyString
  | String c s' => String (if Ascii.eqb c a then b else c) (replace a b s')
  end.

(** [s2] ends with [s1]. *)
Definition is_suffix (s1 s2 : string) : Prop := exists p, s2 = p +:+ s1.

(** every character of [s] is the digit zero *)
Fixpoint all_zero (s : string) : bool :=
  match s with
  | EmptyString => true
  | String c s' => Ascii.eqb c "0" && all_zero s'
  end.

(** Decimal digits read left to right. *)
Fixpoint digits_val (acc : Z) (s : string) : option Z :=
  match s with
  | EmptyString => Some acc
  | String c s' =>
      match Ascii.is_nat c with
      | Some d => digits_val (10 * acc + Z.of_nat d) s'
      | None => None
      end
  end.

(** [int(s)] on a string: optional surrounding white space, optional
    sign, at least one digit; [None] is [ValueError]. *)
Definition int (s : string) : option Z :=
  match strip s with
  | EmptyString => None
  | String "-" EmptyString | String "+" EmptyString => None
  | String "-" r => Z.opp <$> digits_val 0 r
  | String "+" r => digits_val 0 r
  | r => digits_val 0 r
  end.

(** [str(n)] on an integer. *)
Fixpoint digits_of (fuel : nat) (n : Z) (acc : string) : string :=
  match fuel with
  | O => acc
  | S fuel' =>
      let d := ascii_of_nat (48 + Z.to_nat (n mod 10)) in
      if n <? 10 then String d acc else digits_of fuel' (n / 10) (String d acc)
  end.
Definition str_nonneg (n : Z) : string := digits_of (S (Z.to_nat (Z.log2 n))) n EmptyString.
Definition str (n : Z) : string :=
  if n <? 0 then String "-" (str_nonneg (- n)) else str_nonneg n.

End PyStr.

(** ** [objid_6digit]

<<
def objid_6digit(obj_list):
    for i, obj_id in enumerate(obj_list):
        while len(obj_id)<6:
            obj_id = '0'+obj_id
        obj_list[i] = obj_id
    return obj_list
>>
    The [while] loop prepends one zero per turn.  [zfill_while] runs it
    with a bound on the number of turns; [zfill_while_done] below shows that
    six turns always reach the exit test, so [objid_pad] is the loop. *)

Fixpoint zfill_while (fuel : nat) (obj_id : string) : string :=
  if (String.length obj_id <? 6)%nat then
    match fuel with
    | O => obj_id
    | S fuel' => zfill_while fuel' (String "0" obj_id)
    end
  else obj_id.

Definition objid_pad (obj_id : string) : string := zfill_while 6 obj_id.

Definition objid_6digit (obj_list : list string) : list string :=
  objid_pad <$> obj_list.

(** [obj_list] is a Python list above.  When it is a numpy string array,
    the store [obj_list[i] = obj_id] keeps the first [itemsize] characters
    of the padded value only: the items of such an array have one fixed
    width. *)
Definition objid_6digit_array (itemsize : nat) (obj_list : list string)
  : list string :=
  (fun obj_id => PyStr.take itemsize (objid_pad obj_id)) <$> obj_list.

(** ** Calendar dates of the [datetime] library

    A [datetime] at midnight is represented by its proleptic Gregorian
    ordinal (day 1 is 0001-01-01), as [datetime.toordinal] gives it;
    [ymd2ord] and [ord2ymd] are the library's conversions. *)

Module Calendar.

Definition is_leap (year : Z) : bool :=
  (year mod 4 =? 0) && (negb (year mod 100 =? 0) || (year mod 400 =? 0)).

Definition days_in_month (year month : Z) : Z :=
  if month =? 2 then (if is_leap year then 29 else 28)
  else if (month =? 4) || (month =? 6) || (month =? 9) || (month =? 11) then 30
  else 31.

(** [_DAYS_BEFORE_MONTH] *)
Definition days_before_month_tbl (month : Z) : Z :=
  nth (Z.to_nat month) [0; 0; 31; 59; 90; 120; 151; 181; 212; 243; 273; 304; 334] 0.

Definition days_before_year (year : Z) : Z :=
  let y := year - 1 in y * 365 + y / 4 - y / 100 + y / 400.

Definition days_before_month (year month : Z) : Z :=
  days_before_month_tbl month + (if (2 <? month) && is_leap year then 1 else 0).

Definition ymd2ord (year month day : Z) : Z :=
  days_before_year year + days_before_month year month + day.

Definition ord2ymd (ord : Z) : Z * Z * Z :=
  let n := ord - 1 in
  let n400 := n / 146097 in let n := n mod 146097 in
  let year := n400 * 400 + 1 in
  let n100 := n / 36524 in let n := n mod 36524 in
  let n4 := n / 1461 in let n := n mod 1461 in
  let n1 := n / 365 in let n := n mod 365 in
  let year := year + n100 * 100 + n4 * 4 + n1 in
  if (n1 =? 4) || (n100 =? 4) then (year - 1, 12, 31)
  else
    let leapyear := (n1 =? 3) && (negb (n4 =? 24) || (n100 =? 3)) in
    let month := Z.shiftr (n + 50) 5 in
    let preceding :=
      days_before_month_tbl month + (if (2 <? month) && leapyear then 1 else 0) in
    if n <? preceding then
      let month := month - 1 in
      let dim :=
        (if month =? 2 then 28
         else if (month =? 4) || (month =? 6) || (month =? 9) || (month =? 11)
              then 30 else 31)
        + (if (month =? 2) && leapyear then 1 else 0) in
      (year, month, n - (preceding - dim) + 1)
    else (year, month, n - preceding + 1).

(** [datetime(year, month, day)]: [None] is [ValueError]. *)
Definition make_date (year month day : Z) : option Z :=
  if (1 <=? year) && (year <=? 9999) && (1 <=? month) && (month <=? 12)
     && (1 <=? day) && (day <=? days_in_month year month)
  then Some (ymd2ord year month day) else None.

(** The directives [%Y] (four digits), [%m] and [%d] (two characters
    here, since the formats below are applied to strings of fixed
    length: two digits, or for [%d] a blank and a digit). *)
Definition field_Y (s : string) : option Z :=
  if (String.length s =? 4)%nat then PyStr.digits_val 0 s else None.

Definition field_m (s : string) : option Z :=
  if (String.length s =? 2)%nat then
    m ← PyStr.digits_val 0 s; if (1 <=? m) && (m <=? 12) then Some m else None
  else None.

Definition field_d (s : string) : option Z :=
  match s with
  | String " " (String c EmptyString) =>
      d ← Ascii.is_nat c; if (1 <=? d)%nat then Some (Z.of_nat d) else None
  | _ =>
      if (String.length s =? 2)%nat then
        d ← PyStr.digits_val 0 s; if (1 <=? d) && (d <=? 31) then Some d else None
      else None
  end.

(** [datetime.strptime(s, '%Y%m%d')] on a string of length 8 *)
Definition strptime_compact (s : string) : option Z :=
  y ← field_Y (PyStr.take 4 s);
  m ← field_m (PyStr.take 2 (PyStr.drop 4 s));
  d ← field_d (PyStr.drop 6 s);
  make_date y m d.

(** [datetime.strptime(s, '%Y-%m-%d')] on a string of length 10 *)
Definition strptime_dashed (s : string) : option Z :=
  y ← field_Y (PyStr.take 4 s);
  m ← field_m (PyStr.take 2 (PyStr.drop 5 s));
  d ← field_d (PyStr.drop 8 s);
  if String.eqb (PyStr.take 1 (PyStr.drop 4 s)) "-"
     && String.eqb (PyStr.take 1 (PyStr.drop 7 s)) "-"
  then make_date y m d else None.

Definition two_digits (n : Z) : string :=
  if n <? 10 then String "0" (PyStr.str n) else PyStr.str n.

(** [d.strftime("%Y-%m-%d")]; Python 2 refuses years before 1900. *)
Definition strftime (ord : Z) : outcome string :=
  let '(y, m, d) := ord2ymd ord in
  if y <? 1900 then Raise "ValueError"
  else Ok (PyStr.str y +:+ "-" +:+ two_digits m +:+ "-" +:+ two_digits d).

End Calendar.

(** ** Range expansion

<<
def solve_range(date_range):
    try:
        start_date, end_date = date_range.split(':')
    except:
        sys.exit('"time_date" data type not understood.')
    return start_date, end_date
>> *)

Definition solve_range (date_range : string) : outcome (string * string) :=
  match PyStr.split ":" date_range with
  | [start_date; end_date] => Ok (start_date, end_date)
  | _ => Exit "time_date data type not understood."
  end.

(** A value bound to [start_date] or [end_date] after [format_date]: a
    [datetime], or the string it was when its length is neither 8 nor
    10 (no branch of [format_date] converts it then). *)
Inductive date_val : Type :=
  | DDate (ord : Z)
  | DStr (s : string).

(** <<
def format_date(start_date, end_date):
    ...
    if isinstance(start_date, str):
        if len(start_date) == 8:
            start_date = datetime.datetime.strptime(str(start_date), '%Y%m%d')
        elif len(start_date) == 10:
            start_date.replace('/','-')
            start_date = datetime.datetime.strptime(str(start_date), '%Y-%m-%d')
    ...
    if isinstance(end_date, str):
        if len(end_date) == 8:
            end_date = datetime.datetime.strptime(str(end_date), '%Y%m%d')
        elif len(end_date) == 10:
            end_date = end_date.replace('/','-')
            end_date = datetime.datetime.strptime(str(end_date), '%Y-%m-%d')
    return start_date, end_date
>>
    The result of [replace] is dropped for [start_date] and kept for
    [end_date]. *)

Definition format_start (start_date : string) : outcome date_val :=
  if (String.length start_date =? 8)%nat then
    DDate <$> of_option "ValueError" (Calendar.strptime_compact start_date)
  else if (String.length start_date =? 10)%nat then
    DDate <$> of_option "ValueError" (Calendar.strptime_dashed start_date)
  else Ok (DStr start_date).

Definition format_end (end_date : string) : outcome date_val :=
  if (String.length end_date =? 8)%nat then
    DDate <$> of_option "ValueError" (Calendar.strptime_compact end_date)
  else if (String.length end_date =? 10)%nat then
    DDate <$> of_option "ValueError"
      (Calendar.strptime_dashed (PyStr.replace "/" "-" end_date))
  else Ok (DStr end_date).

Definition format_date (start_date end_date : string) : outcome (date_val * date_val) :=
  s ← format_start start_date; e ← format_end end_date; Ok (s, e).

(** <<
def perdelta(start, end, delta):
    curr = start
    while curr < end:
        yield curr
        curr += delta
>>
    with [delta] one day.  [perdelta_while] bounds the number of turns;
    [perdelta] gives it [end - start] turns, which [perdelta_while_enough]
    shows to be all the loop can take. *)

Fixpoint perdelta_while (fuel : nat) (curr end_ : Z) : list Z :=
  if curr <? end_ then
    match fuel with
    | O => []
    | S fuel' => curr :: perdelta_while fuel' (curr + 1) end_
    end
  else [].

Definition perdelta (start end_ : Z) : list Z :=
  perdelta_while (Z.to_nat (end_ - start)) start end_.

(** <<
def get_time_date_from_range(date_range):
    start_date, end_date = solve_range(date_range)
    time_date = []
    start_date, end_date = format_date(start_date, end_date)
    for bufdate in perdelta(start_date, end_date, datetime.timedelta(days=1)):
        time_date.append(bufdate.strftime("%Y-%m-%d"))
    return time_date
>>
    Two unconverted strings are compared as strings: the loop is not
    entered when [start < end] fails, and its first turn fails on
    [strftime] otherwise.  A [datetime] does not compare with a string. *)

Definition get_time_date_from_range (date_range : string) : outcome (list string) :=
  '(start_date, end_date) ← solve_range date_range;
  '(start_date, end_date) ← format_date start_date end_date;
  match start_date, end_date with
  | DDate s, DDate e => outcome_mapM Calendar.strftime (perdelta s e)
  | DStr s, DStr e => if String.ltb s e then Raise "AttributeError" else Ok []
  | _, _ => Raise "TypeError"
  end.

(** [range(a, b)] of Python 2 *)
Definition py_range (a b : Z) : list Z := seqZ a (b - a).

(** <<
def get_time_actionid_from_range(actionid_range):
    start_actionid, end_actionid = solve_range(actionid_range)
    start_actionid = int(start_actionid)
    end_actionid = int(end_actionid)
    time_actionid = range(start_actionid, end_actionid+1)
    return time_actionid
>> *)

Definition get_time_actionid_from_range (actionid_range : string) : outcome (list Z) :=
  '(start_actionid, end_actionid) ← solve_range actionid_range;
  start_actionid ← of_option "ValueError" (PyStr.int start_actionid);
  end_actionid ← of_option "ValueError" (PyStr.int end_actionid);
  Ok (py_range start_actionid (end_actionid + 1)).

(** ** Array values

    An element of a numpy array is an integer, a finite float, the float
    NaN, or a string.  Floats are carried as rationals: no claim below
    depends on rounding. *)

Inductive cell : Type :=
  | CInt (z : Z)
  | CFloat (q : Q)
  | CNaN
  | CStr (s : string).

(** An n-dimensional array as nested sequences: [Item] is a 0-d array (or a
    numpy scalar), [Arr] lists the sub-arrays along the leading axis.  An
    array whose leading axis has length 0 is [Arr []] whatever its other
    axes are. *)
#[warnings="-register-all"]
Inductive ndarray : Type :=
  | Item (c : cell)
  | Arr (items : list ndarray).

Module Np.

(** [a.shape] *)
Fixpoint shape (a : ndarray) : list nat :=
  match a with
  | Item _ => []
  | Arr l => length l :: match l with [] => [] | x :: _ => shape x end
  end.

(** [len(a)]; a 0-d array has no length ([TypeError]). *)
Definition len (a : ndarray) : outcome nat :=
  match a with
  | Item _ => Raise "TypeError"
  | Arr l => Ok (length l)
  end.

(** [a[0]] *)
Definition getitem0 (a : ndarray) : outcome ndarray :=
  match a with
  | Arr (x :: _) => Ok x
  | _ => Raise "IndexError"
  end.

(** [a[:,0]] *)
Definition getcol0 (a : ndarray) : outcome ndarray :=
  match a with
  | Arr l => Arr <$> outcome_mapM getitem0 l
  | Item _ => Raise "IndexError"
  end.

(** The element at a full index, [None] when there is none. *)
Fixpoint get_path (p : list nat) (a : ndarray) : option ndarray :=
  match p with
  | [] => Some a
  | i :: p' =>
      match a with
      | Item _ => None
      | Arr l => x ← l !! i; get_path p' x
      end
  end.

(** [c > 0] *)
Definition cell_gt0 (c : cell) : outcome bool :=
  match c with
  | CInt z => Ok (0 <? z)
  | CFloat q => Ok (if Qlt_le_dec 0 q then true else false)
  | CNaN => Ok false
  | CStr _ => Raise "TypeError"
  end.

(** The full indices of the elements that are [> 0], in row-major
    order. *)
Fixpoint where_gt0 (a : ndarray) : outcome (list (list nat)) :=
  match a with
  | Item c => b ← cell_gt0 c; Ok (if b : bool then [[]] else [])
  | Arr l =>
      (fix go (i : nat) (l : list ndarray) : outcome (list (list nat)) :=
         match l with
         | [] => Ok []
         | x :: l' =>
             ps ← where_gt0 x; qs ← go (S i) l'; Ok (((i ::.) <$> ps) ++ qs)
         end) 0%nat l
  end.

(** [np.where(a > 0)], one index tuple per element found.  A 0-d
    argument counts as a one-element vector. *)
Definition np_where_gt0 (a : ndarray) : outcome (list (list nat)) :=
  match a with
  | Item c => b ← cell_gt0 c; Ok (if b : bool then [[0%nat]] else [])
  | Arr _ => where_gt0 a
  end.

(** Storing [np.nan] in one element: an integer array cannot hold it, a
    string array stores its text. *)
Definition cell_set_nan (c : cell) : outcome cell :=
  match c with
  | CInt _ => Raise "ValueError"
  | CFloat _ | CNaN => Ok CNaN
  | CStr _ => Ok (CStr "nan")
  end.

(** An operation applied to every element, as numpy broadcasts it *)
Fixpoint map_cells (f : cell -> outcome cell) (a : ndarray) : outcome ndarray :=
  match a with
  | Item c => Item <$> f c
  | Arr l =>
      Arr <$> (fix go (l : list ndarray) : outcome (list ndarray) :=
                 match l with
                 | [] => Ok []
                 | x :: l' => y ← map_cells f x; ys ← go l'; Ok (y :: ys)
                 end) l
  end.

(** [a[...] = np.nan]: every element of [a] *)
Definition fill_nan (a : ndarray) : outcome ndarray := map_cells cell_set_nan a.

(** [a[i1, ..., ik] = np.nan]; the index may be shorter than the number
    of axes, the sub-array is filled then. *)
Fixpoint set_nan_at (p : list nat) (a : ndarray) : outcome ndarray :=
  match p with
  | [] => fill_nan a
  | i :: p' =>
      match a with
      | Item _ => Raise "IndexError"
      | Arr l =>
          match l !! i with
          | None => Raise "IndexError"
          | Some x => y ← set_nan_at p' x; Ok (Arr (<[i:=y]> l))
          end
      end
  end.

(** One store per index tuple of [ind] *)
Fixpoint set_nan_each (ind : list (list nat)) (a : ndarray) : outcome ndarray :=
  match ind with
  | [] => Ok a
  | p :: ind' => a' ← set_nan_at p a; set_nan_each ind' a'
  end.

(** an array that holds integers *)
Fixpoint int_dtype (a : ndarray) : bool :=
  match a with
  | Item (CInt _) => true
  | Item _ => false
  | Arr l =>
      (fix go (l : list ndarray) : bool :=
         match l with
         | [] => false
         | x :: l' => int_dtype x || go l'
         end) l
  end.

(** [a[ind] = np.nan] for [ind] a tuple of index arrays as [np.where]
    returns it.  numpy converts [np.nan] to the type of [a] before it
    stores: an integer array refuses it, also when [ind] is empty. *)
Definition set_nan_where (ind : list (list nat)) (a : ndarray) : outcome ndarray :=
  if int_dtype a then Raise "ValueError" else set_nan_each ind a.

(** [a[obj_nr, ind] = np.nan] for [ind] a tuple of index arrays: the
    tuple becomes one index array for the second axis, all its entries
    are positions on that axis. *)
Definition set_nan_row (obj_nr : nat) (ind : list (list nat)) (a : ndarray)
  : outcome ndarray :=
  match a with
  | Item _ => Raise "IndexError"
  | Arr l =>
      match l !! obj_nr with
      | None => Raise "IndexError"
      | Some (Item _) => Raise "IndexError"
      | Some row =>
          row' ← set_nan_where ((fun j => [j]) <$> concat ind) row;
          Ok (Arr (<[obj_nr:=row']> l))
      end
  end.

(** Arrays from Python lists *)
Definition vec (l : list cell) : ndarray := Arr (Item <$> l).
Definition mat (rows : list (list cell)) : ndarray := Arr (vec <$> rows).

(** The arrays the readers deliver: one axis, or two axes with rows of
    one length. *)
Definition is_item (a : ndarray) : bool :=
  match a with Item _ => true | Arr _ => false end.
Definition is_vector (a : ndarray) : bool :=
  match a with Item _ => false | Arr l => forallb is_item l end.
Definition row_length (a : ndarray) : nat :=
  match a with Item _ => 0%nat | Arr l => length l end.
Definition is_matrix (a : ndarray) : bool :=
  match a with
  | Item _ => false
  | Arr l =>
      forallb is_vector l
      && forallb (fun r => (row_length r =? row_length (hd (Item CNaN) l))%nat) l
  end.

(** *** Vocabulary of the statements about [np.where] and NaN *)

(** the flag of this position is set: [c > 0] holds *)
Definition flagged (c : cell) : bool :=
  match cell_gt0 c with Ok b => b | _ => false end.

Definition is_number (c : cell) : bool :=
  match c with CStr _ => false | _ => true end.
Definition is_float (c : cell) : bool :=
  match c with CFloat _ | CNaN => true | _ => false end.

(** every element satisfies [P] *)
Fixpoint all_cells (P : cell -> bool) (a : ndarray) : bool :=
  match a with
  | Item c => P c
  | Arr l =>
      (fix go (l : list ndarray) : bool :=
         match l with
         | [] => true
         | x :: l' => all_cells P x && go l'
         end) l
  end.

(** the two arrays have the same lengths along every axis, at every
    position *)
Fixpoint same_shape (a b : ndarray) : bool :=
  match a, b with
  | Item _, Item _ => true
  | Arr l, Arr k =>
      (fix go (l k : list ndarray) : bool :=
         match l, k with
         | [], [] => true
         | x :: l', y :: k' => same_shape x y && go l' k'
         | _, _ => false
         end) l k
  | _, _ => false
  end.

(** [x] with NaN at the positions where [flags] is set *)
Fixpoint mask (flags x : ndarray) : ndarray :=
  match flags, x with
  | Item f, Item c => Item (if flagged f then CNaN else c)
  | Arr lf, Arr lx =>
      Arr ((fix go (lf lx : list ndarray) : list ndarray :=
              match lf, lx with
              | f :: lf', y :: lx' => mask f y :: go lf' lx'
              | _, _ => lx
              end) lf lx)
  | _, _ => x
  end.

End Np.

Abbreviation dict := (gmap string ndarray).

(** ** Dimensional simplification

<<
def simplify_dic(dic):
    for key, value in dic.items():
        if value.shape[0] == 1:
            dic[key] = value[0]
        elif (len(value.shape) > 1) and (value.shape[1] == 1):
            dic[key] = value[:,0]
    return dic
>> *)

Definition simplify_value (value : ndarray) : outcome ndarray :=
  match Np.shape value with
  | [] => Raise "IndexError"
  | n0 :: rest =>
      if (n0 =? 1)%nat then Np.getitem0 value
      else match rest with
           | n1 :: _ => if (n1 =? 1)%nat then Np.getcol0 value else Ok value
           | [] => Ok value
           end
  end.

Definition simplify_dic (dic : dict) : outcome dict :=
  list_to_map <$>
    outcome_mapM (fun kv => y ← simplify_value kv.2; Ok (kv.1, y)) (map_to_list dic).

(** ** Flag-driven invalidation

<<
def set_nan_dic(dic):
    if len(dic['OBJ_ID']) == 1:
        dic = set_nan_single(dic)
    elif len(dic['OBJ_ID']) > 1:
        dic = set_nan_multi(dic)
    return dic
>> *)

Definition nan_keys : list string :=
  ["FLUX"; "FLUX_ERR"; "FLUX3"; "FLUX3_ERR";
   "FLUX4"; "FLUX4_ERR"; "FLUX5"; "FLUX5_ERR";
   "SYSREM_FLUX3"; "SYSREM_FLUX3_ERR";
   "DECORR_FLUX3"; "DECORR_FLUX3_ERR";
   "CCDX"; "CCDX_ERR"; "CCDY"; "CCDY_ERR";
   "CENTDX"; "CENTDX_ERR"; "CENTDY"; "CENTDY_ERR"].

(** [dic[key]] *)
Definition getitem (dic : dict) (key : string) : outcome ndarray :=
  of_option "KeyError" (dic !! key).

(** [for key in keys: if key in dic: dic[key] = f(dic[key])] *)
Fixpoint update_present (f : ndarray -> outcome ndarray) (keys : list string)
    (dic : dict) : outcome dict :=
  match keys with
  | [] => Ok dic
  | key :: keys' =>
      match dic !! key with
      | Some a => a' ← f a; update_present f keys' (<[key:=a']> dic)
      | None => update_present f keys' dic
      end
  end.

(** <<
def set_nan_single(dic):
    ind_broken = np.where( dic['FLAGS'] > 0 )
    for key in [...]:
        if key in dic:
            dic[key][ind_broken] = np.nan
    return dic
>> *)

Definition set_nan_single (dic : dict) : outcome dict :=
  flags ← getitem dic "FLAGS";
  ind_broken ← Np.np_where_gt0 flags;
  update_present (Np.set_nan_where ind_broken) nan_keys dic.

(** <<
def set_nan_multi(dic):
    N_obj = dic['FLAGS'].shape[0]
    for obj_nr in range(N_obj):
        ind_broken = np.where( dic['FLAGS'][obj_nr] > 0 )
        for key in [...]:
            if key in dic:
                dic[key][obj_nr,ind_broken] = np.nan
    return dic
>> *)

Fixpoint set_nan_rows (obj_nr : nat) (flag_rows : list ndarray) (dic : dict)
  : outcome dict :=
  match flag_rows with
  | [] => Ok dic
  | row :: rows' =>
      ind_broken ← Np.np_where_gt0 row;
      dic' ← update_present (Np.set_nan_row obj_nr ind_broken) nan_keys dic;
      set_nan_rows (S obj_nr) rows' dic'
  end.

Definition set_nan_multi (dic : dict) : outcome dict :=
  flags ← getitem dic "FLAGS";
  match flags with
  | Item _ => Raise "IndexError"
  | Arr flag_rows => set_nan_rows 0 flag_rows dic
  end.

Definition set_nan_dic (dic : dict) : outcome dict :=
  obj_id ← getitem dic "OBJ_ID";
  n ← Np.len obj_id;
  if (n =? 1)%nat then set_nan_single dic
  else if (1 <? n)%nat then set_nan_multi dic
  else Ok dic.

(** ** The files behind [fnames]

    A FITS binary table is a map from column names to columns.  An entry
    of the [fnames] dictionary is missing, [None], or names a file, which
    is represented by its content. *)

Abbreviation table := (gmap string (list cell)).

Inductive entry (A : Type) : Type :=
  | Missing
  | IsNone
  | File (content : A).
Arguments Missing {A}.
Arguments IsNone {A}.
Arguments File {A} content.

(** [('k' in fnames) and (fnames['k'] is not None)] *)
Definition entry_file {A} (e : entry A) : option A :=
  match e with File a => Some a | _ => None end.

(** [fnames['k']], where [None] stands for the Python value [None] *)
Definition entry_get {A} (e : entry A) : outcome (option A) :=
  match e with
  | Missing => Raise "KeyError"
  | IsNone => Ok None
  | File a => Ok (Some a)
  end.

Record bls_file : Type := {
  bls_catalogue : table;
  bls_candidates : table
}.

(** The CANVAS text file as [np.genfromtxt(..., names=True)] reads it: the
    [OBJ_ID] column after [astype('|S6')] and the columns by name, in file
    order. *)
Record canvas_file : Type := {
  canvas_objid : list string;
  canvas_columns : list (string * list cell)
}.

Inductive layout : Type :=
  | Megafile     (* 'BLSPipe_megafile' in fnames *)
  | Decomposed.  (* fnames['nights'] is not None *)

(** The file set.  The optional [sysrem], [decorr], [dilution] and
    [sysrem_im] entries are taken to be absent; the sections of the
    readers that they guard are skipped then. *)
Record fileset : Type := {
  fs_layout : layout;
  fs_catalogue : table;
  fs_imagelist : table;
  (** image HDUs by extension name: the HDUs of the megafile in file
      order, or the per-quantity files [fnames[key]] *)
  fs_images : list (string * list (list cell));
  fs_bls : entry bls_file;
  fs_canvas : entry canvas_file;
  (** text files by path, as the list of values [np.loadtxt] reads;
      [None] when [os.path.isfile] is false *)
  fs_text : string -> option (list string)
}.

(** A resolved index set: [slice(None)] or explicit indices *)
Inductive selection : Type :=
  | All
  | Rows (inds : list Z).

(** *** Reader primitives *)

Definition reader_is_pyfits (fitsreader : string) : bool :=
  String.eqb fitsreader "astropy" || String.eqb fitsreader "pyfits".
Definition reader_is_fitsio (fitsreader : string) : bool :=
  String.eqb fitsreader "fitsio" || String.eqb fitsreader "cfitsio".

Definition reader_exit {A} : outcome A :=
  Exit "fitsreader can only be astropy/pyfits or fitsio/cfitsio.".

(** [hdu.data[name]], [hdu.read(columns=name)] *)
Definition column (t : table) (name : string) : outcome (list cell) :=
  of_option "KeyError" (t !! name).

(** [.strip()] over a column of strings *)
Definition strip_cell (c : cell) : outcome string :=
  match c with
  | CStr s => Ok (PyStr.strip s)
  | _ => Raise "AttributeError"
  end.
Definition strip_column (col : list cell) : outcome (list string) :=
  outcome_mapM strip_cell col.

(** [a[i]] for one integer index: negative indices count from the end *)
Definition np_index {A} (a : list A) (i : Z) : outcome A :=
  let n := Z.of_nat (length a) in
  if (0 <=? i) && (i <? n) then of_option "IndexError" (a !! Z.to_nat i)
  else if (- n <=? i) && (i <? 0) then of_option "IndexError" (a !! Z.to_nat (n + i))
  else Raise "IndexError".

(** [a[inds]] for [slice(None)] or a list of integers; both readers
    return the rows asked for, in the order asked *)
Definition np_take {A} (a : list A) (sel : selection) : outcome (list A) :=
  match sel with
  | All => Ok a
  | Rows inds => outcome_mapM (np_index a) inds
  end.

(** [hdu.read(columns=name, rows=inds)] of fitsio: a row number outside
    the table, a negative one included, is refused *)
Definition fitsio_read_rows {A} (a : list A) (inds : list Z) : outcome (list A) :=
  if forallb (fun i => (0 <=? i) && (i <? Z.of_nat (length a))) inds
  then np_take a (Rows inds) else Raise "ValueError".

(** [np.in1d(ar1, ar2).nonzero()[0]]: the positions of [ar1] whose
    element occurs in [ar2], ascending.  ([assume_unique=True] only
    selects a faster algorithm.) *)
Definition in1d_nonzero `{EqDecision A} (ar1 ar2 : list A) : list Z :=
  (fun p : nat * A => Z.of_nat p.1) <$>
    filter (fun p : nat * A => p.2 ∈ ar2) (imap pair ar1).

(** [np.sort] and [np.unique] *)
Definition np_sort_Z (l : list Z) : list Z := merge_sort Z.le l.
Definition np_sort_str (l : list string) : list string := merge_sort String.le l.
Definition np_unique_str (l : list string) : list string :=
  remove_dups (np_sort_str l).

(** ** Object selection

<<
def get_indobjs_from_objids(fnames, obj_list, fitsreader):
    if fitsreader=='astropy' or fitsreader=='pyfits':
        ... obj_ids_all = hdulist['CATALOGUE'].data['OBJ_ID'].strip()
    elif fitsreader=='fitsio' or fitsreader=='cfitsio':
        ... obj_ids_all = np.char.strip( hdulist['CATALOGUE'].read(columns='OBJ_ID') )
    else: sys.exit(...)
    ind_objs = np.in1d(obj_ids_all, obj_list, assume_unique=True).nonzero()[0]
    for obj_id in obj_list:
        if obj_id not in obj_ids_all[ind_objs]:
            warnings.warn('obj_id '+str(obj_id)+' not found in fits file.')
    obj_ids = obj_ids_all[ind_objs]
    return ind_objs, obj_ids
>>
    The result carries the warnings issued. *)

Definition catalogue_objids (fnames : fileset) (fitsreader : string)
  : outcome (list string) :=
  if reader_is_pyfits fitsreader then
    col ← column (fs_catalogue fnames) "OBJ_ID"; strip_column col
  else if reader_is_fitsio fitsreader then
    col ← column (fs_catalogue fnames) "OBJ_ID"; strip_column col
  else reader_exit.

Definition warn_not_found (obj_id : string) : string :=
  "obj_id " +:+ obj_id +:+ " not found in fits file.".

Definition get_indobjs_from_objids (fnames : fileset) (obj_list : list string)
    (fitsreader : string) : outcome (list Z * list string * list string) :=
  obj_ids_all ← catalogue_objids fnames fitsreader;
  let ind_objs := in1d_nonzero obj_ids_all obj_list in
  obj_ids ← np_take obj_ids_all (Rows ind_objs);
  let warnings :=
    warn_not_found <$> filter (fun obj_id => obj_id ∉ obj_ids) obj_list in
  Ok (ind_objs, obj_ids, warnings).

(** <<
def get_objids_from_indobjs(fnames, ind_objs, fitsreader):
    if fitsreader=='astropy' or fitsreader=='pyfits':
        ... obj_ids = hdulist['CATALOGUE'].data['OBJ_ID'][ind_objs].strip()
    elif fitsreader=='fitsio' or fitsreader=='cfitsio':
        ... if isinstance(ind_objs, slice): obj_ids = np.char.strip( hdulist['CATALOGUE'].read(columns='OBJ_ID') )
            else: obj_ids = np.char.strip( hdulist['CATALOGUE'].read(columns='OBJ_ID', rows=ind_objs) )
    else: sys.exit(...)
    obj_ids = objid_6digit(obj_ids)
    return obj_ids
>>
    The identifier column of the catalogue is taken to be six characters
    wide at least, as the identifiers of NGTS are: the store of
    [objid_6digit] into the array read from it cuts nothing then. *)

Definition get_objids_from_indobjs (fnames : fileset) (ind_objs : selection)
    (fitsreader : string) : outcome (list string) :=
  obj_ids ←
    (if reader_is_pyfits fitsreader then
       col ← column (fs_catalogue fnames) "OBJ_ID";
       rows ← np_take col ind_objs; strip_column rows
     else if reader_is_fitsio fitsreader then
       col ← column (fs_catalogue fnames) "OBJ_ID";
       match ind_objs with
       | All => strip_column col
       | Rows inds => rows ← fitsio_read_rows col inds; strip_column rows
       end
     else reader_exit);
  Ok (objid_6digit obj_ids).

(** *** Selector values

    An object selector is a number, a string (an identifier, a file name
    or a keyword) or a sequence of numbers and strings.  Numbers are
    integers: float arguments are not represented. *)

Inductive pyval : Type :=
  | PInt (z : Z)
  | PStr (s : string).

Inductive selector : Type :=
  | SInt (z : Z)
  | SStr (s : string)
  | SSeq (l : list pyval).

Definition pyval_is_str (v : pyval) : bool :=
  match v with PStr _ => true | PInt _ => false end.

(** [str(v)] *)
Definition pyval_str (v : pyval) : string :=
  match v with PInt z => PyStr.str z | PStr s => s end.

(** [int(v)] *)
Definition pyval_int (v : pyval) : outcome Z :=
  match v with
  | PInt z => Ok z
  | PStr s => of_option "ValueError" (PyStr.int s)
  end.

(** [np.atleast_1d(l)]: one string makes the whole array a string array *)
Definition np_atleast_1d (l : list pyval) : list pyval :=
  if existsb pyval_is_str l then (fun v => PStr (pyval_str v)) <$> l else l.

(** The item width of the string array that [np.atleast_1d] makes: that
    of the longest string, at least 1; a number among the strings asks for
    the width of the longest string form of a 64-bit integer, 21. *)
Definition np_itemsize (l : list pyval) : nat :=
  foldr (fun v w =>
           Nat.max (match v with PStr s => String.length s | PInt _ => 21%nat end) w)
        1%nat l.

(** [0 in l] *)
Definition contains_zero (l : list pyval) : bool :=
  existsb (fun v => match v with PInt 0 => true | _ => false end) l.

(** [[x-1 for x in l]] *)
Definition shift_down (l : list pyval) : outcome (list pyval) :=
  outcome_mapM (fun v => match v with
                         | PInt z => Ok (PInt (z - 1))
                         | PStr _ => Raise "TypeError"
                         end) l.

(** a list used as an array index must hold integers *)
Definition as_index (l : list pyval) : outcome (list Z) :=
  outcome_mapM (fun v => match v with
                         | PInt z => Ok z
                         | PStr _ => Raise "IndexError"
                         end) l.

(** [np.loadtxt(path, dtype='S6').tolist()], made a list when it is one
    string *)
Definition loadtxt_S6 (values : list string) : list string :=
  PyStr.take 6 <$> values.

(** [np.loadtxt(path, dtype='int').tolist()]: a list, or one number when
    the file holds one value *)
Definition loadtxt_int (values : list string) : outcome (list Z + Z) :=
  ints ← outcome_mapM (fun s => of_option "ValueError" (PyStr.int s)) values;
  match ints with
  | [z] => Ok (inr z)
  | _ => Ok (inl ints)
  end.

Definition warn_zero_row : string :=
  "indexing was set to fits (starts counting from 1) but obj_rows contained 0. indexing is now automatically set to python to avoid errors.".

(** The block repeated in the sequence, string and number branches of
    [obj_row]:
<<
    if (indexing=='fits'):
        if 0 in ind_objs:
            warnings.warn(...)
            indexing = 'python'
        else:
            ind_objs = [x-1 for x in ind_objs]
>> *)
Definition fits_to_python (indexing : string) (ind_objs : list pyval)
  : outcome (list pyval * list string) :=
  if String.eqb indexing "fits" then
    if contains_zero ind_objs then Ok (ind_objs, [warn_zero_row])
    else l ← shift_down ind_objs; Ok (l, [])
  else Ok (ind_objs, []).

(** The same block in the file branch, which has no test for 0:
<<
    if (indexing=='fits'):
        ind_objs = [x-1 for x in ind_objs]
>> *)
Definition fits_to_python_file (indexing : string) (ind_objs : list Z + Z)
  : outcome (list Z) :=
  if String.eqb indexing "fits" then
    match ind_objs with
    | inl l => Ok ((fun x => x - 1) <$> l)
    | inr _ => Raise "TypeError"
    end
  else
    match ind_objs with
    | inl l => Ok l
    | inr _ => Raise "TypeError"
    end.

(** The identifiers named by the [obj_id] argument, before they are
    looked up in the catalogue, with the warnings issued. *)
Definition requested_objids (fnames : fileset) (obj_ids : selector)
    (fitsreader : string) : outcome (list string * list string) :=
  match obj_ids with
  | SSeq [] => Exit "obj_id data type not understood."
  | SSeq l =>
      let obj_ids := np_atleast_1d l in
      match obj_ids with
      | PStr _ :: _ =>
          (* [obj_ids] is a numpy string array here *)
          Ok (objid_6digit_array (np_itemsize l) (pyval_str <$> obj_ids), [])
      | _ =>
          ints ← outcome_mapM pyval_int obj_ids;
          if forallb (fun x => 0 <? x) ints
          then Ok (objid_6digit (PyStr.str <$> ints), [])
          else Exit "obj_id data type not understood."
      end
  | SStr s =>
      match fs_text fnames s with
      | Some values => Ok (objid_6digit (loadtxt_S6 values), [])
      | None =>
          if negb (String.eqb s "bls") && negb (String.eqb s "canvas") then
            Ok (objid_6digit [s], [])
          else if String.eqb s "bls" then
            bls ← entry_get (fs_bls fnames);
            match bls with
            | Some f =>
                if reader_is_pyfits fitsreader then
                  col ← column (bls_candidates f) "OBJ_ID";
                  ids ← strip_column col; Ok (np_unique_str ids, [])
                else if reader_is_fitsio fitsreader then
                  col ← column (bls_candidates f) "OBJ_ID";
                  ids ← strip_column col; Ok (np_unique_str ids, [])
                else reader_exit
            | None => Ok (["bls"], ["BLS files not found or could not be loaded."])
            end
          else
            canvas ← entry_get (fs_canvas fnames);
            match canvas with
            | Some f => Ok (objid_6digit_array 6 (canvas_objid f), [])
            | None =>
                Ok (["canvas"], ["CANVAS files not found or could not be loaded."])
            end
      end
  | SInt z =>
      if 0 <=? z then Ok (objid_6digit [PyStr.str z], [])
      else Exit "obj_id data type not understood."
  end.

(** <<
    if isinstance(ind_objs[0], (str,float)):
        ind_objs = map(int, ind_objs)
>> *)
Definition int_if_first_str (l : list pyval) : outcome (list pyval) :=
  match l with
  | PStr _ :: _ => ints ← outcome_mapM pyval_int l; Ok (fmap (M:=list) PInt ints)
  | _ => Ok l
  end.

(** The row indices named by the [obj_row] argument, in the counting of
    Python, with the warnings issued. *)
Definition requested_rows (fnames : fileset) (obj_rows : selector)
    (indexing : string) : outcome (list Z * list string) :=
  match obj_rows with
  | SSeq [] => Exit "obj_row data type not understood."
  | SSeq l =>
      ind_objs ← int_if_first_str l;
      '(ind_objs, w) ← fits_to_python indexing ind_objs;
      rows ← as_index ind_objs; Ok (rows, w)
  | SStr s =>
      match fs_text fnames s with
      | Some values =>
          ind_objs ← loadtxt_int values;
          rows ← fits_to_python_file indexing ind_objs; Ok (rows, [])
      | None =>
          z ← of_option "ValueError" (PyStr.int s);
          '(ind_objs, w) ← fits_to_python indexing [PInt z];
          rows ← as_index ind_objs; Ok (rows, w)
      end
  | SInt z =>
      '(ind_objs, w) ← fits_to_python indexing [PInt z];
      rows ← as_index ind_objs; Ok (rows, w)
  end.

(** <<
def get_obj_inds(fnames, obj_ids, obj_rows, indexing, fitsreader, obj_sortby = 'obj_ids'):
    inputtype = None
    if obj_ids is None and obj_rows is None:
        ind_objs = slice(None)
        obj_ids = get_objids_from_indobjs(fnames, ind_objs, fitsreader)
    elif obj_ids is not None and obj_rows is None:
        inputtype = 'obj_ids'
        ... ind_objs, obj_ids = get_indobjs_from_objids(fnames, obj_ids, fitsreader)
    elif obj_ids is None and obj_rows is not None:
        inputtype = 'ind_objs'
        ... obj_ids = get_objids_from_indobjs(fnames, ind_objs, fitsreader)
    else:
        sys.exit('Only use either "obj_id" or "obj_row".')
    if inputtype is not None:
        obj_ids = np.array(obj_ids)
        ind_objs = np.array(ind_objs)
        ind_objs = np.sort(ind_objs)
        obj_ids = np.sort(obj_ids)
    return ind_objs, obj_ids
>>
    The result is [(ind_objs, obj_ids, warnings)]. *)

Definition get_obj_inds (fnames : fileset) (obj_ids obj_rows : option selector)
    (indexing fitsreader : string)
  : outcome (selection * list string * list string) :=
  match obj_ids, obj_rows with
  | None, None =>
      obj_ids ← get_objids_from_indobjs fnames All fitsreader;
      Ok (All, obj_ids, [])
  | Some obj_ids, None =>
      '(obj_list, w1) ← requested_objids fnames obj_ids fitsreader;
      '(ind_objs, obj_ids, w2) ← get_indobjs_from_objids fnames obj_list fitsreader;
      Ok (Rows (np_sort_Z ind_objs), np_sort_str obj_ids, w1 ++ w2)
  | None, Some obj_rows =>
      '(ind_objs, w) ← requested_rows fnames obj_rows indexing;
      obj_ids ← get_objids_from_indobjs fnames (Rows ind_objs) fitsreader;
      Ok (Rows (np_sort_Z ind_objs), np_sort_str obj_ids, w)
  | Some _, Some _ => Exit "Only use either obj_id or obj_row."
  end.

(** ** The readers

    Shared pieces first.  [np.intersect1d(a, b)] is the sorted list of the
    distinct values common to both. *)

Definition intersect1d (a b : list string) : list string :=
  np_unique_str (filter (fun x => x ∈ b) a).

(** [hdu.names], [hdu.get_colnames()] *)
Definition table_names (t : table) : list string := (map_to_list t).*1.

(** [hdu.get_nrows()] *)
Definition table_nrows (t : table) : nat :=
  map_fold (fun _ col n => Nat.max (length col) n) 0%nat t.

(** [for key in subkeys: dic[key] = hdu[key][inds]] *)
Definition read_columns (t : table) (subkeys : list string) (inds : selection)
    (dic : dict) : outcome dict :=
  outcome_foldM (fun dic key =>
                   col ← column t key;
                   rows ← np_take col inds;
                   Ok (<[key:=Np.vec rows]> dic)) dic subkeys.

(** [(dic[key] + bzero) / precision] *)
Definition scale_cell (bzero precision : Q) (c : cell) : outcome cell :=
  match c with
  | CInt z => Ok (CFloat ((inject_Z z + bzero) / precision))
  | CFloat q => Ok (CFloat ((q + bzero) / precision))
  | CNaN => Ok CNaN
  | CStr _ => Raise "TypeError"
  end.

(** <<
    if key in ['CCDX','CCDY']:
        dic[key] = (dic[key] + CCD_bzero) / CCD_precision
    if key in ['CENTDX','CENTDX_ERR','CENTDY','CENTDY_ERR']:
        dic[key] = (dic[key] + CENTD_bzero) / CENTD_precision
>>
    with the default [CCD_bzero=0.], [CCD_precision=32.], [CENTD_bzero=0.],
    [CENTD_precision=1024.] *)
Definition unit_correction (key : string) (a : ndarray) : outcome ndarray :=
  a ← (if bool_decide (key ∈ ["CCDX"; "CCDY"])
       then Np.map_cells (scale_cell 0 32) a else Ok a);
  if bool_decide (key ∈ ["CENTDX"; "CENTDX_ERR"; "CENTDY"; "CENTDY_ERR"])
  then Np.map_cells (scale_cell 0 1024) a else Ok a.

(** The value stored by [dic[key][i] = data[matches]] in a float array:
    one match is stored as a float, several cannot be stored. *)
Definition float_of_cell (c : cell) : outcome cell :=
  match c with
  | CInt z => Ok (CFloat (inject_Z z))
  | CFloat q => Ok (CFloat q)
  | CNaN => Ok CNaN
  | CStr _ => Raise "ValueError"
  end.

Definition store_matches (matches : list cell) : outcome cell :=
  match matches with
  | [c] => float_of_cell c
  | _ => Raise "ValueError"
  end.

(** [data[ids == obj_id]]: the entries of [data] at the positions where
    [ids] is [obj_id] *)
Definition masked (ids : list string) (data : list cell) (obj_id : string)
  : list cell :=
  (fun p : string * cell => p.2) <$>
    filter (fun p : string * cell => p.1 = obj_id) (zip ids data).

(** The column built for one key from a secondary table:
<<
    dic[key] = np.zeros( N_objs ) * np.nan
    for i, singleobj_id in enumerate(obj_ids):
        if singleobj_id in bls_data_objid:
            i_bls = np.where( bls_data_objid == singleobj_id )[0]
            dic[key][i] = bls_data[i_bls]
>> *)
Definition crossmatch (N_objs : nat) (obj_ids : list string)
    (data_objid : list string) (data : list cell) : outcome (list cell) :=
  outcome_foldM (fun (col : list cell) (p : nat * string) =>
                   if bool_decide (p.2 ∈ data_objid) then
                     v ← store_matches (masked data_objid data p.2);
                     if (p.1 <? length col)%nat then Ok (<[p.1:=v]> col)
                     else Raise "IndexError"
                   else Ok col)
                (replicate N_objs CNaN) (imap pair obj_ids).

(** [np.where(col == bls_rank)[0]] *)
Definition rank_is (bls_rank : Z) (c : cell) : bool :=
  match c with
  | CInt z => z =? bls_rank
  | CFloat q => Qeq_bool q (inject_Z bls_rank)
  | _ => false
  end.

Definition where_rank (col : list cell) (bls_rank : Z) : list Z :=
  (fun p : nat * cell => Z.of_nat p.1) <$>
    filter (fun p : nat * cell => rank_is bls_rank p.2) (imap pair col).

(** The candidate rows of the requested objects at the requested rank:
<<
    ind_objs_bls = np.in1d(CANDIDATES['OBJ_ID'].strip(), obj_ids).nonzero()[0]
    ind_rank1 = np.where( CANDIDATES['RANK'] == bls_rank )[0]
    ind_objs_bls = np.intersect1d( ind_objs_bls, ind_rank1 )
>> *)
Definition candidate_rows (f : bls_file) (obj_ids : list string) (bls_rank : Z)
  : outcome (list Z) :=
  col ← column (bls_candidates f) "OBJ_ID";
  ids ← strip_column col;
  rank ← column (bls_candidates f) "RANK";
  let ind_objs_bls := in1d_nonzero ids obj_ids in
  let ind_rank1 := where_rank rank bls_rank in
  Ok (filter (fun i => i ∈ ind_rank1) ind_objs_bls).

Definition remove_key (key : string) (subkeys : list string) : list string :=
  filter (fun k => k ≠ key) subkeys.

(** *** [pyfits_get_data] *)

(** [hdulist[key].data[ind_objs][:,ind_time]] *)
Definition pyfits_image (data : list (list cell)) (ind_objs ind_time : selection)
  : outcome ndarray :=
  rows ← np_take data ind_objs;
  rows ← outcome_mapM (fun row => np_take row ind_time) rows;
  Ok (Np.mat rows).

Definition pyfits_store_image (ind_objs ind_time : selection) (dic : dict)
    (key : string) (data : list (list cell)) : outcome dict :=
  a ← pyfits_image data ind_objs ind_time;
  a ← unit_correction key a;
  Ok (<[key:=a]> dic).

(** The image HDUs: in the megafile every HDU whose name is requested, in
    file order; otherwise every requested key that has a file. *)
Definition pyfits_images (fnames : fileset) (keys : list string)
    (ind_objs ind_time : selection) (dic : dict) : outcome dict :=
  match fs_layout fnames with
  | Megafile =>
      outcome_foldM (fun dic (hdu : string * list (list cell)) =>
                       if bool_decide (hdu.1 ∈ keys)
                       then pyfits_store_image ind_objs ind_time dic hdu.1 hdu.2
                       else Ok dic) dic (fs_images fnames)
  | Decomposed =>
      outcome_foldM (fun dic key =>
                       match list_find (fun hdu : string * list (list cell) => hdu.1 = key)
                               (fs_images fnames) with
                       | Some (_, hdu) =>
                           pyfits_store_image ind_objs ind_time dic key hdu.2
                       | None => Ok dic
                       end) dic keys
  end.

(** The CANDIDATES part of the BLS section of [pyfits_get_data]:
<<
    subkeys = np.intersect1d(hdu.names, keys)
    N_objs = len(dic['OBJ_ID'])
    if 'OBJ_ID' in subkeys: subkeys = np.delete(...)
    if 'FLAGS' in subkeys: subkeys = np.delete(...)
    if 'SIGMA_XS' in subkeys: subkeys = np.delete(...)
    if subkeys.size!=0:
        if len(ind_objs_bls)!=0:
            bls_data_objid = np.char.strip( hdu['OBJ_ID'][ind_objs_bls] )
            for key in subkeys:
                bls_data = hdu[key][ind_objs_bls]
                dic[key] = np.zeros( N_objs ) * np.nan
                for i, singleobj_id in enumerate(obj_ids): ...
        else:
            for key in subkeys:
                dic[key] = np.zeros( N_objs )
>> *)
Definition pyfits_candidates (f : bls_file) (obj_ids : list string)
    (keys : list string) (ind_objs_bls : list Z) (dic : dict) : outcome dict :=
  let hdu := bls_candidates f in
  let subkeys := intersect1d (table_names hdu) keys in
  obj_id ← getitem dic "OBJ_ID";
  N_objs ← Np.len obj_id;
  let subkeys := remove_key "SIGMA_XS" (remove_key "FLAGS" (remove_key "OBJ_ID" subkeys)) in
  match subkeys, ind_objs_bls with
  | [], _ => Ok dic
  | _, _ :: _ =>
      col ← column hdu "OBJ_ID";
      rows ← np_take col (Rows ind_objs_bls);
      bls_data_objid ← strip_column rows;
      outcome_foldM (fun dic key =>
                       col ← column hdu key;
                       bls_data ← np_take col (Rows ind_objs_bls);
                       v ← crossmatch N_objs obj_ids bls_data_objid bls_data;
                       Ok (<[key:=Np.vec v]> dic)) dic subkeys
  | _, [] =>
      Ok (foldl (fun dic key => <[key:=Np.vec (replicate N_objs (CFloat 0))]> dic)
                dic subkeys)
  end.

(** The BLS section of [pyfits_get_data] *)
Definition pyfits_bls (fnames : fileset) (obj_ids : list string)
    (ind_objs : selection) (keys : list string) (bls_rank : Z) (dic : dict)
  : outcome dict :=
  match entry_file (fs_bls fnames) with
  | None => Ok dic
  | Some f =>
      ind_objs_bls ← candidate_rows f obj_ids bls_rank;
      dic ← read_columns (bls_catalogue f)
              (remove_key "OBJ_ID" (intersect1d (table_names (bls_catalogue f)) keys))
              ind_objs dic;
      pyfits_candidates f obj_ids keys ind_objs_bls dic
  end.

Definition pyfits_get_data (fnames : fileset) (obj_ids : list string)
    (ind_objs : selection) (keys : list string) (bls_rank : Z)
    (ind_time : selection) : outcome dict :=
  dic ← read_columns (fs_catalogue fnames)
          (intersect1d (table_names (fs_catalogue fnames)) keys) ind_objs ∅;
  dic ← read_columns (fs_imagelist fnames)
          (intersect1d (table_names (fs_imagelist fnames)) keys) ind_time dic;
  dic ← pyfits_images fnames keys ind_objs ind_time dic;
  pyfits_bls fnames obj_ids ind_objs keys bls_rank dic.

(** *** [fitsio_get_data] *)

(** [range(n)] as an index list *)
Definition all_rows (n : nat) : list Z := py_range 0 (Z.of_nat n).

(** [hdu[..., slice(start, stop)]] on one row of an image: the window
    from [start] up to [stop], cut at the end of the row; a negative bound
    or an empty window is refused. *)
Definition fitsio_slice {A} (row : list A) (start stop : Z) : outcome (list A) :=
  if (0 <=? start) && (start <? stop) then
    match drop (Z.to_nat start) (take (Z.to_nat stop) row) with
    | [] => Raise "ValueError"
    | w => Ok w
    end
  else Raise "ValueError".

(** <<
    buf = hdulist[hdukey][..., slice( ind_time[0], ind_time[-1]+1)]
    if buf.shape[1] != len(ind_time):
        ind_timeX = [x - ind_time[0] for x in ind_time]
        buf = buf[:,ind_timeX]
>>
    on one row *)
Definition fitsio_window (row : list cell) (ind_time : list Z)
  : outcome (list cell) :=
  first ← of_option "IndexError" (head ind_time);
  lst ← of_option "IndexError" (last ind_time);
  buf ← fitsio_slice row first (lst + 1);
  if (length buf =? length ind_time)%nat then Ok buf
  else np_take buf (Rows ((fun x => x - first) <$> ind_time)).

(** One turn of the loop over the objects:
<<
    buf = hdulist[hdukey][slice(ind_singleobj,ind_singleobj+1), slice(...)]
    ...
    dic[key][i,:] = buf
>>
    the row is stored in a float array. *)
Definition fitsio_object_row (data : list (list cell)) (ind_time : list Z)
    (ind_singleobj : Z) : outcome (list cell) :=
  row ← (if 0 <=? ind_singleobj
         then of_option "ValueError" (data !! Z.to_nat ind_singleobj)
         else Raise "ValueError");
  buf ← fitsio_window row ind_time;
  outcome_mapM float_of_cell buf.

(** The loop over the objects, started on [np.zeros((len(ind_objs),
    len(ind_time)))]: the rows of the array when the loop stops, and how
    it stopped. *)
Fixpoint fitsio_object_rows (data : list (list cell)) (ind_time ind_objs : list Z)
  : list (list cell) * outcome unit :=
  match ind_objs with
  | [] => ([], Ok tt)
  | o :: os =>
      match fitsio_object_row data ind_time o with
      | Ok row =>
          let '(rows, r) := fitsio_object_rows data ind_time os in (row :: rows, r)
      | Exit msg =>
          (replicate (length ind_objs) (replicate (length ind_time) (CFloat 0)), Exit msg)
      | Raise e =>
          (replicate (length ind_objs) (replicate (length ind_time) (CFloat 0)), Raise e)
      end
  end.

(** The body of the [if hdukey in keys:] block for one image: the
    dictionary when the block is left, and how it was left. *)
Definition fitsio_store_image (allobjects : bool) (ind_objs ind_time : list Z)
    (dic : dict) (key : string) (data : list (list cell)) : dict * outcome unit :=
  let '(dic, r) :=
    if allobjects then
      match outcome_mapM (fun row => fitsio_window row ind_time) data with
      | Ok rows => (<[key:=Np.mat rows]> dic, Ok tt)
      | Exit msg => (dic, Exit msg)
      | Raise e => (dic, Raise e)
      end
    else
      let '(rows, r) := fitsio_object_rows data ind_time ind_objs in
      (<[key:=Np.mat rows]> dic, r) in
  match r with
  | Ok _ =>
      match dic !! key with
      | Some a =>
          match unit_correction key a with
          | Ok a' => (<[key:=a']> dic, Ok tt)
          | Exit msg => (dic, Exit msg)
          | Raise e => (dic, Raise e)
          end
      | None => (dic, Raise "KeyError")
      end
  | _ => (dic, r)
  end.

(** The image HDUs of the megafile:
<<
    j = 0
    while j!=-1:
        try:
            hdukey = hdulist[j].get_extname()
            if hdukey in keys:
                ...
            j += 1
        except:
            break
>>
    any exception ends the loop and is dropped. *)
Fixpoint fitsio_megafile_images (hdus : list (string * list (list cell)))
    (keys : list string) (allobjects : bool) (ind_objs ind_time : list Z)
    (dic : dict) : dict :=
  match hdus with
  | [] => dic
  | (hdukey, data) :: hdus' =>
      if bool_decide (hdukey ∈ keys) then
        match fitsio_store_image allobjects ind_objs ind_time dic hdukey data with
        | (dic', Ok _) =>
            fitsio_megafile_images hdus' keys allobjects ind_objs ind_time dic'
        | (dic', _) => dic'
        end
      else fitsio_megafile_images hdus' keys allobjects ind_objs ind_time dic
  end.

(** The image files of the decomposed layout: no exception is caught. *)
Definition fitsio_decomposed_images (hdus : list (string * list (list cell)))
    (keys : list string) (allobjects : bool) (ind_objs ind_time : list Z)
    (dic : dict) : outcome dict :=
  outcome_foldM (fun dic key =>
                   match list_find (fun hdu : string * list (list cell) => hdu.1 = key) hdus with
                   | Some (_, hdu) =>
                       let '(dic', r) :=
                         fitsio_store_image allobjects ind_objs ind_time dic key hdu.2 in
                       _ ← r; Ok dic'
                   | None => Ok dic
                   end) dic keys.

(** The CANDIDATES part of the BLS section of [fitsio_get_data]:
<<
    subkeys = np.intersect1d(hdunames, keys)
    if 'OBJ_ID' in subkeys: subkeys = np.delete(...)
    if 'FLAGS' in subkeys: subkeys = np.delete(...)
    if subkeys.size!=0:
        if len(ind_objs_bls)!=0:
            if 'OBJ_ID' not in subkeys: subkeys = np.append(subkeys, 'OBJ_ID')
            bls_data = hdulist_bls[hdukey].read(columns=subkeys, rows=ind_objs_bls)
            if 'OBJ_ID' in subkeys: subkeys = np.delete(...)
            for key in subkeys:
                dic[key] = np.zeros( len(ind_objs) ) * np.nan
                for i, singleobj_id in enumerate(obj_ids): ...
        else:
            for key in subkeys:
                dic[key] = np.zeros( len(ind_objs) ) * np.nan
>> *)
Definition fitsio_candidates (f : bls_file) (obj_ids : list string)
    (keys : list string) (ind_objs : list Z) (ind_objs_bls : list Z) (dic : dict)
  : outcome dict :=
  let hdu := bls_candidates f in
  let subkeys := intersect1d (table_names hdu) keys in
  let subkeys := remove_key "FLAGS" (remove_key "OBJ_ID" subkeys) in
  match subkeys, ind_objs_bls with
  | [], _ => Ok dic
  | _, _ :: _ =>
      col ← column hdu "OBJ_ID";
      rows ← np_take col (Rows ind_objs_bls);
      bls_data_objid ← strip_column rows;
      outcome_foldM (fun dic key =>
                       col ← column hdu key;
                       bls_data ← np_take col (Rows ind_objs_bls);
                       v ← crossmatch (length ind_objs) obj_ids bls_data_objid bls_data;
                       Ok (<[key:=Np.vec v]> dic)) dic subkeys
  | _, [] =>
      Ok (foldl (fun dic key => <[key:=Np.vec (replicate (length ind_objs) CNaN)]> dic)
                dic subkeys)
  end.

(** The BLS section of [fitsio_get_data] *)
Definition fitsio_bls (fnames : fileset) (obj_ids : list string)
    (ind_objs : list Z) (keys : list string) (bls_rank : Z) (dic : dict)
  : outcome dict :=
  match entry_file (fs_bls fnames) with
  | None => Ok dic
  | Some f =>
      ind_objs_bls ← candidate_rows f obj_ids bls_rank;
      dic ← read_columns (bls_catalogue f)
              (remove_key "FLAGS" (remove_key "OBJ_ID"
                 (intersect1d (table_names (bls_catalogue f)) keys)))
              (Rows ind_objs) dic;
      fitsio_candidates f obj_ids keys ind_objs ind_objs_bls dic
  end.

Definition fitsio_get_data (fnames : fileset) (obj_ids : list string)
    (ind_objs : selection) (keys : list string) (bls_rank : Z)
    (ind_time : selection) : outcome dict :=
  (* fitsio does not work with slice arguments, convert to list *)
  let allobjects := match ind_objs with All => true | Rows _ => false end in
  let ind_objs := match ind_objs with
                  | All => all_rows (table_nrows (fs_catalogue fnames))
                  | Rows l => l
                  end in
  let ind_time := match ind_time with
                  | All => all_rows (table_nrows (fs_imagelist fnames))
                  | Rows l => l
                  end in
  dic ← read_columns (fs_catalogue fnames)
          (intersect1d (table_names (fs_catalogue fnames)) keys) (Rows ind_objs) ∅;
  dic ← read_columns (fs_imagelist fnames)
          (intersect1d (table_names (fs_imagelist fnames)) keys) (Rows ind_time) dic;
  dic ← match fs_layout fnames with
        | Megafile =>
            Ok (fitsio_megafile_images (fs_images fnames) keys allobjects
                  ind_objs ind_time dic)
        | Decomposed =>
            fitsio_decomposed_images (fs_images fnames) keys allobjects
              ind_objs ind_time dic
        end;
  fitsio_bls fnames obj_ids ind_objs keys bls_rank dic.

(** ** The CANVAS companion table *)

(** [x * y] on array elements *)
Definition mul_cell (x y : cell) : outcome cell :=
  match x, y with
  | CStr _, _ | _, CStr _ => Raise "TypeError"
  | CNaN, _ | _, CNaN => Ok CNaN
  | CInt a, CInt b => Ok (CInt (a * b))
  | CInt a, CFloat q => Ok (CFloat (inject_Z a * q))
  | CFloat q, CInt b => Ok (CFloat (q * inject_Z b))
  | CFloat p, CFloat q => Ok (CFloat (p * q))
  end.

(** [x * 24.*3600.] *)
Definition to_seconds (x : cell) : outcome cell := mul_cell x (CFloat 86400).

(** the strings of [dic['OBJ_ID']] *)
Definition objid_items (a : ndarray) : outcome (list string) :=
  match a with
  | Item _ => Raise "TypeError"
  | Arr l =>
      outcome_mapM (fun x => match x with
                             | Item (CStr s) => Ok s
                             | _ => Raise "TypeError"
                             end) l
  end.

(** [canvasdata[name]] *)
Definition canvas_column (f : canvas_file) (name : string) : outcome (list cell) :=
  match list_find (fun c : string * list cell => c.1 = name) (canvas_columns f) with
  | Some (_, c) => Ok c.2
  | None => Raise "ValueError"
  end.

(** The second loop of the [CANVAS_WIDTH] case:
<<
    for i, obj_id in enumerate( dic['OBJ_ID'] ):
        if obj_id in canvas_obj_ids:
            dic[ 'CANVAS_WIDTH' ][i] = ( canvasdata['WIDTH'][ canvas_obj_ids == obj_id ]
                * canvasdata['PERIOD'][ canvas_obj_ids == obj_id ] ) *24.*3600.
>> *)
Definition canvas_width (f : canvas_file) (canvas_obj_ids obj_ids : list string)
    (col : list cell) : outcome (list cell) :=
  outcome_foldM (fun (col : list cell) (p : nat * string) =>
                   if bool_decide (p.2 ∈ canvas_obj_ids) then
                     width ← canvas_column f "WIDTH";
                     period ← canvas_column f "PERIOD";
                     prod ← outcome_mapM
                              (fun wp : cell * cell => x ← mul_cell wp.1 wp.2; to_seconds x)
                              (zip (masked canvas_obj_ids width p.2)
                                   (masked canvas_obj_ids period p.2));
                     v ← store_matches prod;
                     if (p.1 <? length col)%nat then Ok (<[p.1:=v]> col)
                     else Raise "IndexError"
                   else Ok col)
                col (imap pair obj_ids).

(** <<
def get_canvas_data( fnames, keys, dic ):
    if ('canvas' in fnames) and (fnames['canvas'] is not None):
        canvasdata = np.genfromtxt(fnames['canvas'], dtype=None, names=True)
        canvas_obj_ids = objid_6digit( canvasdata['OBJ_ID'].astype('|S6') )
        for canvaskey in canvasdata.dtype.names:
            if ('CANVAS_' + canvaskey) in keys:
                dic[ 'CANVAS_' + canvaskey ] = np.zeros( len(dic['OBJ_ID']) ) * np.nan
                for i, obj_id in enumerate( dic['OBJ_ID'] ): ...
                if ('CANVAS_' + canvaskey) == 'CANVAS_PERIOD':
                     dic[ 'CANVAS_' + canvaskey ] *= 24.*3600.
                if ('CANVAS_' + canvaskey) == 'CANVAS_WIDTH': ...
    return dic
>> *)
Definition get_canvas_data (fnames : fileset) (keys : list string) (dic : dict)
  : outcome dict :=
  match entry_file (fs_canvas fnames) with
  | None => Ok dic
  | Some f =>
      let canvas_obj_ids := objid_6digit (canvas_objid f) in
      outcome_foldM (fun dic (c : string * list cell) =>
                       let key := "CANVAS_" +:+ c.1 in
                       if bool_decide (key ∈ keys) then
                         a ← getitem dic "OBJ_ID";
                         obj_ids ← objid_items a;
                         col ← crossmatch (length obj_ids) obj_ids canvas_obj_ids c.2;
                         col ← (if String.eqb key "CANVAS_PERIOD"
                                then outcome_mapM to_seconds col else Ok col);
                         col ← (if String.eqb key "CANVAS_WIDTH"
                                then canvas_width f canvas_obj_ids obj_ids col
                                else Ok col);
                         Ok (<[key:=Np.vec col]> dic)
                       else Ok dic) dic (canvas_columns f)
  end.

(** ** [get_data]

<<
def get_data(fnames, obj_ids, ind_objs, keys, bls_rank, ind_time, fitsreader):
    if isinstance (keys, str): keys = [keys]
    if not isinstance(ind_objs, slice) and len(ind_objs) == 0:
        ... dic = {}
    elif not isinstance(ind_time, slice) and len(ind_time) == 0:
        ... dic = {}
    else:
        if 'OBJ_ID' not in keys:
            keys.append('OBJ_ID')
        if fitsreader=='astropy' or fitsreader=='pyfits': dic = pyfits_get_data(...)
        elif fitsreader=='fitsio' or fitsreader=='cfitsio': dic = fitsio_get_data(...)
        else: sys.exit(...)
        dic = get_canvas_data( fnames, keys, dic )
    return dic, keys
>>
    [keys] is the list object of the caller: the second component of the
    result is its content after the call. *)

Definition is_empty_selection (sel : selection) : bool :=
  match sel with
  | All => false
  | Rows l => (length l =? 0)%nat
  end.

Definition warn_none_found : string :=
  "None of the given objects found in the fits files. Return empty dictionary.".

Definition get_data (fnames : fileset) (obj_ids : list string) (ind_objs : selection)
    (keys : list string) (bls_rank : Z) (ind_time : selection) (fitsreader : string)
  : outcome (dict * list string * list string) :=
  if is_empty_selection ind_objs then Ok (∅, keys, [warn_none_found])
  else if is_empty_selection ind_time then Ok (∅, keys, [warn_none_found])
  else
    let keys := if bool_decide ("OBJ_ID" ∈ keys) then keys else keys ++ ["OBJ_ID"] in
    dic ← (if reader_is_pyfits fitsreader
           then pyfits_get_data fnames obj_ids ind_objs keys bls_rank ind_time
           else if reader_is_fitsio fitsreader
           then fitsio_get_data fnames obj_ids ind_objs keys bls_rank ind_time
           else reader_exit);
    dic ← get_canvas_data fnames keys dic;
    Ok (dic, keys, []).

(** ** [get]

    The driver, with these conventions:
    - [fnames] is the file set after the [standard_roots] and
      [standard_fnames] steps, [None] when they found none;
    - [ind_time] is the value [get_time_inds] returns for the time
      selectors of the call;
    - [keys] is the list object the caller passes;
    - [rad2deg] stands for the float operation [x*180./np.pi].
    The result is the returned dictionary ([None] for Python's [None]), the
    content of the caller's [keys] list after the call, and the
    diagnostics. *)

Section Get.

Variable rad2deg : Q -> Q.

Definition rad2deg_cell (c : cell) : outcome cell :=
  match c with
  | CInt z => Ok (CFloat (rad2deg (inject_Z z)))
  | CFloat q => Ok (CFloat (rad2deg q))
  | CNaN => Ok CNaN
  | CStr _ => Raise "TypeError"
  end.

Definition in_pipeline (fnames : fileset) : bool :=
  match fs_layout fnames with Megafile => true | Decomposed => false end.

Definition legacy_versions : list string := ["TEST10"; "TEST16"; "TEST16A"; "TEST18"].

(** [if k in keys: dic[k] = dic[k]*180./np.pi] *)
Definition convert_if_requested (k : string) (keys : list string) (dic : dict)
  : outcome dict :=
  if bool_decide (k ∈ keys) then
    a ← getitem dic k; a' ← Np.map_cells rad2deg_cell a; Ok (<[k:=a']> dic)
  else Ok dic.

(** [check_dic]: one line per key of [keys_0] that is not in [dic] *)
Definition check_dic (dic : dict) (keys : list string) : list string :=
  (fun key => "Failure: key " +:+ key +:+ " not read into dictionary.") <$>
    filter (fun key => dic !! key = None) keys.

Definition warn_flux_deprecated : string :=
  "FLUX key is deprecated unless for in-pipeline use.".

Definition get (fieldname ngts_version : string) (keys : list string)
    (obj_id obj_row : option selector) (ind_time : selection) (bls_rank : Z)
    (indexing fitsreader : string) (simplify : bool) (fnames : option fileset)
    (set_nan : bool) : outcome (option dict * list string * list string) :=
  let w0 :=
    if bool_decide ("FLUX" ∈ keys)
       && negb (from_option in_pipeline false fnames)
    then [warn_flux_deprecated] else [] in
  match fnames with
  | None => Ok (None, keys, w0)
  | Some fnames =>
      (* keys_0 = 1*keys; keys_0.append('OBJ_ID') *)
      let keys_0 := keys ++ ["OBJ_ID"] in
      (* in pipeline only: keys.append('FLUX') *)
      let keys :=
        if bool_decide ("SYSREM_FLUX3" ∈ keys) && in_pipeline fnames
        then keys ++ ["FLUX"] else keys in
      (* append FLAGS for set_nan: keys.append('FLAGS') *)
      let keys :=
        if set_nan && negb (bool_decide ("FLAGS" ∈ keys_0))
        then keys ++ ["FLAGS"] else keys in
      '(ind_objs, obj_ids, w1) ← get_obj_inds fnames obj_id obj_row indexing fitsreader;
      if negb (is_empty_selection ind_objs) then
        '(dic, keys, w2) ←
          get_data fnames obj_ids ind_objs keys bls_rank ind_time fitsreader;
        (* in pipeline only *)
        dic ← (if bool_decide ("SYSREM_FLUX3" ∈ keys) && in_pipeline fnames then
                 flux ← getitem dic "FLUX";
                 let dic := <["SYSREM_FLUX3":=flux]> dic in
                 Ok (if bool_decide ("FLUX" ∈ keys_0) then dic else delete "FLUX" dic)
               else Ok dic);
        (* set flagged values to nan *)
        dic ← (if set_nan then set_nan_dic dic else Ok dic);
        (* remove entries that were only needed for readout *)
        let dic :=
          if bool_decide (is_Some (dic !! "FLAGS")) && negb (bool_decide ("FLAGS" ∈ keys_0))
          then delete "FLAGS" dic else dic in
        (* convert RA and DEC from radian into degree *)
        dic ← (if negb (in_pipeline fnames) && bool_decide (ngts_version ∈ legacy_versions)
               then dic ← convert_if_requested "RA" keys dic;
                    convert_if_requested "DEC" keys dic
               else Ok dic);
        (* simplify output if only for 1 object *)
        dic ← (if simplify then simplify_dic dic else Ok dic);
        (* add fieldname and ngts_version *)
        let dic := <["NGTS_VERSION":=Item (CStr ngts_version)]>
                     (<["FIELDNAME":=Item (CStr fieldname)]> dic) in
        Ok (Some dic, keys, w0 ++ w1 ++ w2 ++ check_dic dic keys_0)
      else Ok (None, keys, w0 ++ w1)
  end.

End Get.

(** ** Example data *)

Definition floats (l : list Z) : list cell := (fun z => CFloat (inject_Z z)) <$> l.

(** Fields of shape (1, 5), (5, 1) and (1, 1) *)
Definition example_fields : dict :=
  <["A":=Np.mat [floats [1; 2; 3; 4; 5]]]>
    (<["B":=Np.mat [floats [1]; floats [2]; floats [3]; floats [4]; floats [5]]]>
       (<["C":=Np.mat [floats [1]]]> ∅)).

(** The stripped identifier column of the catalogue, which both readers
    deliver alike *)
Definition catalogue_ids (fnames : fileset) : outcome (list string) :=
  col ← column (fs_catalogue fnames) "OBJ_ID"; strip_column col.


(** A small data set: four objects, three exposures, one candidate table
    in which only the object 000046 has a candidate of rank 1, and a text
    file of row numbers that starts with 0. *)
Definition example_catalogue : table :=
  <["OBJ_ID":=CStr <$> ["000001 "; "000046"; "001337  "; "002000"]]>
    (<["RA":=floats [1; 2; 3; 4]]> ∅).

Definition example_candidates : table :=
  <["OBJ_ID":=CStr <$> ["000046  "; "000046  "]]>
    (<["RANK":=CInt <$> [1; 2]]>
       (<["PERIOD":=floats [10; 20]]> ∅)).

Definition example_files : fileset :=
  {| fs_layout := Decomposed;
     fs_catalogue := example_catalogue;
     fs_imagelist := <["AIRMASS":=floats [1; 2; 3]]> ∅;
     fs_images :=
       [("FLUX3", [floats [1; 2; 3]; floats [4; 5; 6]; floats [7; 8; 9];
                   floats [10; 11; 12]]);
        ("FLAGS", [CInt <$> [0; 1; 0]; CInt <$> [0; 0; 0]; CInt <$> [1; 1; 0];
                   CInt <$> [0; 0; 2]])];
     fs_bls := File {| bls_catalogue := ∅; bls_candidates := example_candidates |};
     fs_canvas := IsNone;
     fs_text := fun path => if String.eqb path "rows.txt" then Some ["0"; "3"] else None |}.

(** The loops nested in [Np.where_gt0], [Np.mask], [Np.same_shape] and
    [Np.all_cells], by themselves (see [where_gt0_Arr] and its
    neighbours). *)
Fixpoint where_list (i : nat) (l : list ndarray) : outcome (list (list nat)) :=
  match l with
  | [] => Ok []
  | x :: l' =>
      ps ← Np.where_gt0 x; qs ← where_list (S i) l'; Ok (((i ::.) <$> ps) ++ qs)
  end.

Fixpoint mask_list (lf lx : list ndarray) : list ndarray :=
  match lf, lx with
  | f :: lf', y :: lx' => Np.mask f y :: mask_list lf' lx'
  | _, _ => lx
  end.

Fixpoint same_shape_list (l k : list ndarray) : bool :=
  match l, k with
  | [], [] => true
  | x :: l', y :: k' => Np.same_shape x y && same_shape_list l' k'
  | _, _ => false
  end.

Fixpoint all_cells_list (P : cell -> bool) (l : list ndarray) : bool :=
  match l with
  | [] => true
  | x :: l' => Np.all_cells P x && all_cells_list P l'
  end.

(** [a[obj_nr]] replaced by its masked form *)
Definition mask_row (obj_nr : nat) (flag_row : ndarray) (a : ndarray) : ndarray :=
  match a with
  | Item _ => a
  | Arr l =>
      match l !! obj_nr with
      | Some row => Arr (<[obj_nr:=Np.mask flag_row row]> l)
      | None => a
      end
  end.

(** The flags and the fields of the specification's example, for one
    object and for two *)
Definition example_single : dict :=
  <["OBJ_ID":=Np.vec [CStr "000046"]]>
    (<["FLAGS":=Np.vec (CInt <$> [0; 1; 0; 1])]>
       (<["FLUX":=Np.vec (floats [1; 2; 3; 4])]>
          (<["HJD":=Np.vec (floats [5; 6; 7; 8])]> ∅))).

Definition example_multi : dict :=
  <["OBJ_ID":=Np.vec [CStr "000046"; CStr "001337"]]>
    (<["FLAGS":=Np.mat [CInt <$> [0; 1; 0; 1]; CInt <$> [2; 0; 0; 0]]]>
       (<["FLUX":=Np.mat [floats [1; 2; 3; 4]; floats [5; 6; 7; 8]]]>
          (<["HJD":=Np.mat [floats [5; 6; 7; 8]; floats [5; 6; 7; 8]]]> ∅))).

(** a negative flag *)
Definition example_negative_flag : dict :=
  <["OBJ_ID":=Np.vec [CStr "000046"]]>
    (<["FLAGS":=Np.vec [CInt (-1)]]>
       (<["FLUX":=Np.vec (floats [1])]> ∅)).

(** What [get] returns for the keys RA and FLUX3 of the object 000046 of
    the small data set *)
Definition example_result : dict :=
  <["OBJ_ID":=Np.vec [CStr "000046"]]>
    (<["RA":=Np.vec (floats [2])]>
       (<["FLUX3":=Np.mat [floats [4; 5; 6]]]>
          (<["FIELDNAME":=Item (CStr "NG0304-1115")]>
             (<["NGTS_VERSION":=Item (CStr "CYCLE1706")]> ∅)))).

(** * Properties *)

(** ** Reasoning about outcomes *)

Lemma bind_Ok {A B} (f : A -> outcome B) (m : outcome A) (b : B) :
  m ≫= f = Ok b <-> exists a, m = Ok a /\ f a = Ok b.
Proof.
  destruct m as [a| |]; simpl; split.
  - intros H. exists a. split; [reflexivity | exact H].
  - intros (a' & E & H). injection E as ->. exact H.
  - discriminate.
  - intros (a' & E & _). discriminate.
  - discriminate.
  - intros (a' & E & _). discriminate.
Qed.

Lemma fmap_Ok {A B} (f : A -> B) (m : outcome A) (b : B) :
  f <$> m = Ok b <-> exists a, m = Ok a /\ b = f a.
Proof.
  destruct m as [a| |]; simpl; split.
  - intros [= <-]. eauto.
  - intros (a' & [= ->] & ->). reflexivity.
  - discriminate.
  - intros (a' & E & _). discriminate.
  - discriminate.
  - intros (a' & E & _). discriminate.
Qed.

Lemma of_option_Ok {A} (e : string) (o : option A) (a : A) :
  of_option e o = Ok a <-> o = Some a.
Proof. destruct o; simpl; split; congruence. Qed.

Lemma Ok_inj {A} (a b : A) : Ok a = Ok b -> a = b.
Proof. congruence. Qed.

(** Reduction of the binds, and of nothing else. *)
Ltac bind_simpl :=
  cbn [mbind mret fmap outcome_mbind outcome_ret outcome_fmap outcome_bind of_option].

Tactic Notation "bind_simpl" "in" hyp(H) :=
  cbn [mbind mret fmap outcome_mbind outcome_ret outcome_fmap outcome_bind of_option] in H.

(** Inversion of a successful sequence of binds. *)
Ltac ok_inv :=
  repeat match goal with
    | H : _ ≫= _ = Ok _ |- _ =>
        let a := fresh "a" in
        let E := fresh "E" in
        apply bind_Ok in H; destruct H as (a & E & H)
    | H : _ <$> _ = Ok _ |- _ =>
        let a := fresh "a" in
        let E := fresh "E" in
        apply fmap_Ok in H; destruct H as (a & E & H)
    | H : context [match ?p with (_, _) => _ end] |- _ => is_var p; destruct p
    | H : of_option _ _ = Ok _ |- _ => apply of_option_Ok in H
    | H : Ok _ = Ok _ |- _ => apply Ok_inj in H
    | H : Exit _ = Ok _ |- _ => discriminate H
    | H : Raise _ = Ok _ |- _ => discriminate H
    end.

Lemma outcome_mapM_Ok {A B} (f : A -> outcome B) (l : list A) (k : list B) :
  outcome_mapM f l = Ok k <-> Forall2 (fun x y => f x = Ok y) l k.
Proof.
  revert k. induction l as [|x l IH]; intros k; simpl.
  - split; [intros [= <-]; constructor | intros H; inversion H; reflexivity].
  - split.
    + intros H. ok_inv. subst k. constructor; [assumption|]. apply IH. assumption.
    + intros H. inversion H as [|? y ? k' Hx Hl]; subst.
      rewrite Hx. simpl. apply IH in Hl. rewrite Hl. reflexivity.
Qed.

Lemma outcome_mapM_total {A B} (f : A -> outcome B) (g : A -> B) (l : list A) :
  Forall (fun x => f x = Ok (g x)) l -> outcome_mapM f l = Ok (g <$> l).
Proof.
  induction 1 as [|x l Hx _ IH]; simpl; [reflexivity|].
  rewrite Hx. simpl. rewrite IH. reflexivity.
Qed.


Lemma outcome_mapM_exists {A B} (f : A -> outcome B) (l : list A) :
  Forall (fun x => exists y, f x = Ok y) l -> exists k, outcome_mapM f l = Ok k.
Proof.
  induction 1 as [|x l [y Hy] _ [k IH]]; simpl; [eauto|].
  rewrite Hy. simpl. rewrite IH. simpl. eauto.
Qed.

(** ** Identifier padding *)

Lemma string_app_nil (t : string) : EmptyString +:+ t = t.
Proof. reflexivity. Qed.

Lemma string_app_cons (a : ascii) (s t : string) :
  String a s +:+ t = String a (s +:+ t).
Proof. reflexivity. Qed.

Lemma string_app_length (s t : string) :
  String.length (s +:+ t) = (String.length s + String.length t)%nat.
Proof.
  induction s as [|a s IH]; [reflexivity|].
  rewrite string_app_cons. simpl. rewrite IH. reflexivity.
Qed.

Lemma string_app_assoc (s t u : string) : (s +:+ t) +:+ u = s +:+ (t +:+ u).
Proof.
  induction s as [|a s IH]; [reflexivity|].
  rewrite !string_app_cons, IH. reflexivity.
Qed.

(** The loop leaves a string of six characters or more alone. *)
Lemma zfill_while_long fuel s :
  (6 <= String.length s)%nat -> zfill_while fuel s = s.
Proof.
  intros H. destruct fuel; simpl;
    (destruct (Nat.ltb_spec (String.length s) 6); [lia | reflexivity]).
Qed.

(** The loop prepends zeros only, and with enough fuel exactly as many as
    are missing. *)
Lemma zfill_while_spec fuel s :
  (6 - String.length s <= fuel)%nat ->
  exists p, zfill_while fuel s = p +:+ s /\ PyStr.all_zero p = true
            /\ String.length p = (6 - String.length s)%nat.
Proof.
  revert s. induction fuel as [|fuel IH]; intros s Hf; simpl.
  - destruct (Nat.ltb_spec (String.length s) 6); [lia|].
    exists EmptyString. repeat split. simpl. lia.
  - destruct (Nat.ltb_spec (String.length s) 6) as [Hlt|Hge].
    + destruct (IH (String "0" s)) as (p & E & Hz & Hl); [simpl; lia|].
      exists (p +:+ "0"). rewrite E. repeat split.
      * rewrite string_app_assoc. reflexivity.
      * clear -Hz. induction p as [|a p IHp]; simpl in *; [reflexivity|].
        apply andb_true_iff in Hz as [-> Hz]. simpl. auto.
      * rewrite string_app_length, Hl. simpl. lia.
    + exists EmptyString. repeat split. simpl. lia.
Qed.

(** Six turns are all the loop of [objid_6digit] can take: the exit test
    holds of the value [objid_pad] returns. *)
Lemma zfill_while_done s : (6 <= String.length (objid_pad s))%nat.
Proof.
  destruct (zfill_while_spec 6 s) as (p & E & _ & Hl); [lia|].
  unfold objid_pad. rewrite E, string_app_length, Hl. lia.
Qed.

(** More fuel than six turns changes nothing. *)
Lemma zfill_while_enough fuel s :
  (6 <= fuel)%nat -> zfill_while fuel s = objid_pad s.
Proof.
  intros Hf. unfold objid_pad.
  assert (G : forall n m t, (6 - String.length t <= n)%nat ->
                            (6 - String.length t <= m)%nat ->
                            zfill_while n t = zfill_while m t).
  { induction n as [|n IHn]; intros m t Hn Hm.
    - rewrite !zfill_while_long by lia. reflexivity.
    - destruct m as [|m].
      + rewrite !zfill_while_long by lia. reflexivity.
      + simpl. destruct (Nat.ltb_spec (String.length t) 6); [|reflexivity].
        apply IHn; simpl; lia. }
  apply G; lia.
Qed.

Lemma objid_pad_id s : (6 <= String.length s)%nat -> objid_pad s = s.
Proof. apply zfill_while_long. Qed.

Lemma objid_6digit_id l :
  Forall (fun s => (6 <= String.length s)%nat) l -> objid_6digit l = l.
Proof.
  unfold objid_6digit. induction 1 as [|s l Hs _ IH]; simpl; [reflexivity|].
  rewrite objid_pad_id by assumption. f_equal. exact IH.
Qed.


(** X1. On a Python list, which is what [objid_6digit] is given for the
    scalar, the number and the file forms of [obj_id]: for every list of
    identifiers of at most six characters the function returns, entry by
    entry, a string of exactly six characters that is the input preceded
    by zeros only. *)
Theorem objid_6digit_canonical (obj_list : list string) :
  Forall (fun s => (String.length s <= 6)%nat) obj_list ->
  Forall2 (fun s t => String.length t = 6%nat /\
                      exists p, t = p +:+ s /\ PyStr.all_zero p = true)
          obj_list (objid_6digit obj_list).
Proof.
  unfold objid_6digit. induction 1 as [|s l Hs _ IH]; simpl; constructor; [|exact IH].
  destruct (zfill_while_spec 6 s) as (p & E & Hz & Hl); [lia|].
  fold (objid_pad s) in E. split.
  - rewrite E, string_app_length, Hl. lia.
  - exists p. split; assumption.
Qed.

(** The two identifiers of the specification, in a Python list. *)
Lemma objid_6digit_canonical_witness :
  Forall2 (fun s t => String.length t = 6%nat /\
                      exists p, t = p +:+ s /\ PyStr.all_zero p = true)
          ["46"; "1337"] ["000046"; "001337"]
  /\ objid_6digit (PyStr.str <$> [46; 1337]) = ["000046"; "001337"].
Proof.
  split; [|reflexivity].
  apply (objid_6digit_canonical ["46"; "1337"]).
  repeat constructor.
Defined.

(** X2. Padding is idempotent, and an identifier of six characters or
    more is left as it is: nothing is cut in a Python list. *)
Theorem objid_6digit_idempotent (obj_list : list string) :
  objid_6digit (objid_6digit obj_list) = objid_6digit obj_list
  /\ Forall (fun s => (6 <= String.length s)%nat) (objid_6digit obj_list)
  /\ (Forall (fun s => (6 <= String.length s)%nat) obj_list ->
      objid_6digit obj_list = obj_list).
Proof.
  assert (H : Forall (fun s => (6 <= String.length s)%nat) (objid_6digit obj_list)).
  { unfold objid_6digit. apply Forall_fmap, Forall_forall. intros s _.
    apply zfill_while_done. }
  split; [apply objid_6digit_id, H|]. split; [exact H | apply objid_6digit_id].
Qed.

(** C9 (failing input). The identifiers 46 and 1337 given as a list of
    strings: [np.atleast_1d] makes of them an array of item width 4, the
    store [obj_list[i] = obj_id] keeps four characters of each padded
    value, and the identifiers looked up are 0000 and 0013, which the
    catalogue does not hold.  The same identifiers given as numbers go
    through a Python list, are padded to 000046 and 001337, and are
    found. *)
Lemma objid_6digit_cut_in_string_array :
  np_itemsize [PStr "46"; PStr "1337"] = 4%nat
  /\ objid_6digit_array 4 ["46"; "1337"] = ["0000"; "0013"]
  /\ requested_objids example_files (SSeq [PStr "46"; PStr "1337"]) "fitsio"
     = Ok (["0000"; "0013"], [])
  /\ get_obj_inds example_files (Some (SSeq [PStr "46"; PStr "1337"])) None
                  "fits" "fitsio"
     = Ok (Rows [], [],
           ["obj_id 0000 not found in fits file.";
            "obj_id 0013 not found in fits file."])
  /\ get_obj_inds example_files (Some (SSeq [PInt 46; PInt 1337])) None
                  "fits" "fitsio"
     = Ok (Rows [1; 2], ["000046"; "001337"], []).
Proof. repeat split; vm_compute; reflexivity. Qed.

(** ** Range expansion *)

(** With as many turns as there are days from [curr] to [end_], the loop
    of [perdelta] reaches its exit test: it yields the days
    [curr, curr+1, ..., end_-1]. *)
Lemma perdelta_while_enough fuel curr end_ :
  (Z.to_nat (end_ - curr) <= fuel)%nat ->
  perdelta_while fuel curr end_ = seqZ curr (end_ - curr).
Proof.
  revert curr. induction fuel as [|fuel IH]; intros curr Hf; simpl.
  - destruct (Z.ltb_spec curr end_); [lia|]. rewrite seqZ_nil by lia. reflexivity.
  - destruct (Z.ltb_spec curr end_).
    + rewrite seqZ_cons by lia. f_equal. rewrite IH by lia.
      f_equal; lia.
    + rewrite seqZ_nil by lia. reflexivity.
Qed.

Lemma perdelta_spec start end_ : perdelta start end_ = seqZ start (end_ - start).
Proof. apply perdelta_while_enough. lia. Qed.

Lemma py_range_spec a b n : n ∈ py_range a b <-> a <= n < b.
Proof. unfold py_range. rewrite elem_of_seqZ. lia. Qed.

(** From 1900 on (ordinal 693596 is 1900-01-01) [strftime] returns. *)
Lemma strftime_returns ord :
  693596 <= ord -> exists s, Calendar.strftime ord = Ok s.
Proof.
  intros H. unfold Calendar.strftime.
  destruct (Calendar.ord2ymd ord) as [[y m] d] eqn:E.
  assert (Hy : 1900 <= y).
  { unfold Calendar.ord2ymd in E.
    repeat match type of E with
           | context [if ?c then _ else _] => destruct c eqn:?
           end; injection E as <- <- <-;
      rewrite ?orb_true_iff, ?orb_false_iff, ?Z.eqb_eq, ?Z.eqb_neq in *;
      Z.div_mod_to_equations; lia. }
  destruct (Z.ltb_spec y 1900); [lia|]. eauto.
Qed.

(** X3. A date range whose two ends [format_date] parses, from 1900 on:
    the expansion returns, and it holds the days from the start up to but
    excluding the end, each in the form of [strftime], in ascending
    order. *)
Theorem date_range_end_excluded (date_range dA dB : string) (a b : Z) :
  solve_range date_range = Ok (dA, dB) ->
  format_date dA dB = Ok (DDate a, DDate b) ->
  693596 <= a ->
  exists days,
    get_time_date_from_range date_range = Ok days
    /\ Forall2 (fun d s => Calendar.strftime d = Ok s) (seqZ a (b - a)) days
    /\ (forall d, d ∈ seqZ a (b - a) <-> a <= d < b).
Proof.
  intros Hd Hf Ha.
  unfold get_time_date_from_range. rewrite Hd. bind_simpl. rewrite Hf. bind_simpl.
  rewrite perdelta_spec.
  destruct (outcome_mapM_exists Calendar.strftime (seqZ a (b - a))) as [days Hdays].
  { apply Forall_forall. intros d Hin. apply elem_of_seqZ in Hin.
    apply strftime_returns. lia. }
  exists days. split; [exact Hdays|]. split.
  - apply outcome_mapM_Ok, Hdays.
  - intros d. rewrite elem_of_seqZ. lia.
Qed.

Lemma date_range_end_excluded_witness :
  exists days,
    get_time_date_from_range "2020-01-01:2020-01-04" = Ok days
    /\ Forall2 (fun d s => Calendar.strftime d = Ok s)
               (seqZ 737425 (737428 - 737425)) days
    /\ (forall d, d ∈ seqZ 737425 (737428 - 737425) <-> 737425 <= d < 737428).
Proof.
  apply (date_range_end_excluded "2020-01-01:2020-01-04" "2020-01-01" "2020-01-04"
           737425 737428); [reflexivity | reflexivity | lia].
Defined.

(** X4. An action-id range whose two ends [int] parses: the expansion is
    every integer from the start through the end, the end included; it is
    empty when the end is below the start. *)
Theorem actionid_range_end_included (id_range iA iB : string) (x y : Z) :
  solve_range id_range = Ok (iA, iB) ->
  PyStr.int iA = Some x ->
  PyStr.int iB = Some y ->
  get_time_actionid_from_range id_range = Ok (seqZ x (y - x + 1))
  /\ (forall n, n ∈ seqZ x (y - x + 1) <-> x <= n <= y)
  /\ (y < x -> get_time_actionid_from_range id_range = Ok []).
Proof.
  intros Hi Hx Hy.
  assert (E : get_time_actionid_from_range id_range = Ok (seqZ x (y - x + 1))).
  { unfold get_time_actionid_from_range. rewrite Hi. bind_simpl.
    rewrite Hx, Hy. bind_simpl. unfold py_range. do 2 f_equal. lia. }
  split; [exact E|]. split.
  - intros n. rewrite elem_of_seqZ. lia.
  - intros Hlt. rewrite E, seqZ_nil by lia. reflexivity.
Qed.

Lemma actionid_range_end_included_witness :
  get_time_actionid_from_range "100:103" = Ok (seqZ 100 (103 - 100 + 1))
  /\ (forall n, n ∈ seqZ 100 (103 - 100 + 1) <-> 100 <= n <= 103)
  /\ (103 < 100 -> get_time_actionid_from_range "100:103" = Ok []).
Proof.
  apply (actionid_range_end_included "100:103" "100" "103" 100 103); reflexivity.
Defined.

Example date_range_example :
  get_time_date_from_range "2020-01-01:2020-01-04"
  = Ok ["2020-01-01"; "2020-01-02"; "2020-01-03"].
Proof. reflexivity. Qed.

Example actionid_range_example :
  get_time_actionid_from_range "100:103" = Ok [100; 101; 102; 103].
Proof. reflexivity. Qed.

(** C3 (failing input). A range whose dates are written with slashes, a
    form that [time_date] accepts: [format_date] drops the result of
    [replace] for the start date and keeps it for the end date, so that
    [strptime] is given the slashes of the start date and the expansion
    ends in ValueError, where the same range written with hyphens gives
    its three days.  Slashes in the end date alone do no harm. *)
Lemma date_range_slash_start_raises :
  get_time_date_from_range "2020/01/01:2020/01/04" = Raise "ValueError"
  /\ format_start "2020/01/01" = Raise "ValueError"
  /\ format_end "2020/01/04" = Ok (DDate 737428)
  /\ get_time_date_from_range "2020-01-01:2020/01/04"
     = Ok ["2020-01-01"; "2020-01-02"; "2020-01-03"]
  /\ get_time_date_from_range "2020-01-01:2020-01-04"
     = Ok ["2020-01-01"; "2020-01-02"; "2020-01-03"].
Proof. repeat split; vm_compute; reflexivity. Qed.

(** Before 1900 the [strftime] of Python 2 refuses the date: a range that
    starts in 1899 parses and fails in the loop. *)
Example date_range_before_1900 :
  format_date "1899-12-30" "1900-01-02" = Ok (DDate 693594, DDate 693597)
  /\ get_time_date_from_range "1899-12-30:1900-01-02" = Raise "ValueError".
Proof. split; vm_compute; reflexivity. Qed.

(** ** Dimensional simplification *)

(** A leading axis of length 1 is dropped. *)
Lemma simplify_value_leading v rest :
  Np.shape v = 1%nat :: rest ->
  exists x, v = Arr [x] /\ simplify_value v = Ok x /\ Np.getitem0 v = Ok x
            /\ Np.shape x = rest.
Proof.
  destruct v as [c|[|x [|x' l]]]; simpl; try discriminate.
  intros [= <-]. exists x. unfold simplify_value. simpl. auto.
Qed.

(** Otherwise a second axis of length 1 is dropped. *)
Lemma simplify_value_trailing v n rest :
  n <> 1%nat -> Np.shape v = n :: 1%nat :: rest ->
  simplify_value v = Np.getcol0 v
  /\ forall v', Np.getcol0 v = Ok v' -> Np.shape v' = n :: rest.
Proof.
  intros Hn Hs. split.
  - unfold simplify_value. rewrite Hs.
    destruct (Nat.eqb_spec n 1); [contradiction|]. reflexivity.
  - intros v' Hc. destruct v as [c|l]; [discriminate|]. simpl in Hc.
    ok_inv. subst v'. rename a into k.
    apply outcome_mapM_Ok in E.
    destruct E as [|r y l k Hr Hl]; simpl in Hs |- *; [discriminate|].
    injection Hs as <- Hs. f_equal.
    { f_equal. symmetry. eapply Forall2_length, Hl. }
    destruct r as [c|[|z zs]]; simpl in Hr; try discriminate.
    injection Hr as ->. simpl in Hs. congruence.
Qed.

(** Every other array is left as it is. *)
Lemma simplify_value_unchanged v n rest :
  n <> 1%nat -> hd 0%nat rest <> 1%nat -> Np.shape v = n :: rest ->
  simplify_value v = Ok v.
Proof.
  intros Hn Hr Hs. unfold simplify_value. rewrite Hs.
  destruct (Nat.eqb_spec n 1); [contradiction|].
  destruct rest as [|m rest]; [reflexivity|]. simpl in Hr.
  destruct (Nat.eqb_spec m 1); [contradiction|]. reflexivity.
Qed.

Lemma is_vector_row r :
  Np.is_vector r = true -> Np.row_length r = 1%nat ->
  exists c, r = Arr [Item c].
Proof.
  destruct r as [c|[|[c|l'] [|y l]]]; simpl; try discriminate; eauto.
Qed.

(** A vector or a matrix is simplified without an exception. *)
Lemma simplify_value_returns v :
  Np.is_vector v || Np.is_matrix v = true -> exists v', simplify_value v = Ok v'.
Proof.
  intros H. destruct v as [c|l]; [discriminate|].
  unfold simplify_value. simpl Np.shape.
  destruct l as [|x l]; [simpl; eauto|].
  destruct l as [|x' l]; [simpl; eauto|].
  simpl length. change (S (S (length l)) =? 1)%nat with false. cbv iota.
  destruct (Np.shape x) as [|n1 rest] eqn:Hx; [eauto|].
  destruct (n1 =? 1)%nat eqn:Hn1; [|eauto].
  apply Nat.eqb_eq in Hn1. subst n1.
  remember (x' :: l) as l0 eqn:Hl0. clear Hl0 x' l. rename l0 into l.
  apply orb_true_iff in H as [H|H].
  { simpl in H. destruct x; [discriminate Hx | discriminate H]. }
  unfold Np.is_matrix in H. apply andb_true_iff in H as [Hv Hr].
  change (hd (Item CNaN) (x :: l)) with x in Hr.
  assert (Hx1 : Np.row_length x = 1%nat).
  { destruct x as [c|lx]; [discriminate|]. simpl in Hx |- *. congruence. }
  assert (G : Forall (fun r => exists y, Np.getitem0 r = Ok y) (x :: l)).
  { apply Forall_forall. intros r Hin.
    assert (Hin' : In r (x :: l)) by (apply list_elem_of_In; exact Hin).
    pose proof (proj1 (forallb_forall _ _) Hr r Hin') as Hlen.
    pose proof (proj1 (forallb_forall _ _) Hv r Hin') as Hvec.
    apply Nat.eqb_eq in Hlen. rewrite Hx1 in Hlen.
    destruct (is_vector_row r Hvec Hlen) as [c ->]. simpl. eauto. }
  apply outcome_mapM_exists in G as [k Hk].
  unfold Np.getcol0. rewrite Hk. simpl. eauto.
Qed.

(** The loop of [simplify_dic] replaces every value by its simplified
    form and touches no key. *)
Lemma simplify_dic_lookup (dic dic' : dict) :
  simplify_dic dic = Ok dic' ->
  forall key,
    match dic !! key with
    | None => dic' !! key = None
    | Some v => exists v', simplify_value v = Ok v' /\ dic' !! key = Some v'
    end.
Proof.
  unfold simplify_dic. intros H. ok_inv. subst dic'. rename a into l'.
  apply outcome_mapM_Ok in E.
  assert (R : Forall2 (fun kv kv' : string * ndarray =>
                         kv'.1 = kv.1 /\ simplify_value kv.2 = Ok kv'.2)
                      (map_to_list dic) l').
  { eapply Forall2_impl; [exact E|]. intros [k v] [k' v'] Hkv. simpl in *.
    ok_inv. injection Hkv as <- <-. auto. }
  assert (Hfst : l'.*1 = (map_to_list dic).*1).
  { clear E. induction R as [|? ? ? ? [Hk _] _ IH]; [reflexivity|].
    rewrite !fmap_cons, Hk, IH. reflexivity. }
  assert (Hnd : NoDup l'.*1) by (rewrite Hfst; apply NoDup_fst_map_to_list).
  intros key. destruct (dic !! key) as [v|] eqn:Hk.
  - apply elem_of_map_to_list in Hk.
    apply list_elem_of_lookup in Hk as [i Hi].
    destruct (Forall2_lookup_l _ _ _ _ _ R Hi) as ([k' v'] & Hi' & Hk' & Hv').
    simpl in *. subst k'. exists v'. split; [assumption|].
    apply elem_of_list_to_map; [assumption|].
    apply list_elem_of_lookup. eauto.
  - apply not_elem_of_list_to_map_1. rewrite Hfst.
    intros Hin. apply list_elem_of_fmap in Hin as ([k v] & -> & Hin).
    apply elem_of_map_to_list in Hin. simpl in Hk. congruence.
Qed.

Lemma simplify_dic_returns (dic : dict) :
  (forall key v, dic !! key = Some v -> exists v', simplify_value v = Ok v') ->
  exists dic', simplify_dic dic = Ok dic'.
Proof.
  intros H. unfold simplify_dic.
  destruct (outcome_mapM_exists
              (fun kv : string * ndarray => y ← simplify_value kv.2; Ok (kv.1, y))
              (map_to_list dic)) as [k Hk].
  - apply Forall_forall. intros [key v] Hin. apply elem_of_map_to_list in Hin.
    destruct (H key v Hin) as [v' Hv']. simpl. rewrite Hv'. simpl. eauto.
  - rewrite Hk. simpl. eauto.
Qed.

(** C5 (as amended). On a dictionary of vectors and matrices
    [simplify_dic] returns, and field by field: a leading axis of length 1
    is dropped ([value[0]]); failing that, a second axis of length 1 is
    dropped ([value[:,0]]); failing both the field is unchanged.  One axis
    at most is dropped per field. *)
Theorem simplify_dic_per_field (dic : dict) :
  map_Forall (fun _ v => Np.is_vector v || Np.is_matrix v = true) dic ->
  exists dic',
    simplify_dic dic = Ok dic' /\
    forall key v, dic !! key = Some v ->
      exists v',
        dic' !! key = Some v' /\
        (forall rest, Np.shape v = 1%nat :: rest ->
           Np.getitem0 v = Ok v' /\ Np.shape v' = rest) /\
        (forall n rest, n <> 1%nat -> Np.shape v = n :: 1%nat :: rest ->
           Np.getcol0 v = Ok v' /\ Np.shape v' = n :: rest) /\
        (forall n rest, n <> 1%nat -> hd 0%nat rest <> 1%nat ->
           Np.shape v = n :: rest -> v' = v).
Proof.
  intros Hreg.
  destruct (simplify_dic_returns dic) as [dic' Hd].
  { intros key v Hk. apply simplify_value_returns. exact (Hreg key v Hk). }
  exists dic'. split; [exact Hd|].
  intros key v Hk. pose proof (simplify_dic_lookup dic dic' Hd key) as L.
  rewrite Hk in L. destruct L as (v' & Hv & Hk'). exists v'.
  split; [exact Hk'|]. repeat split.
  - destruct (simplify_value_leading v rest H) as (x & -> & Hx & Hg & Hs).
    rewrite Hx in Hv. injection Hv as <-. exact Hg.
  - destruct (simplify_value_leading v rest H) as (x & -> & Hx & Hg & Hs).
    rewrite Hx in Hv. injection Hv as <-. exact Hs.
  - destruct (simplify_value_trailing v n rest H H0) as [E _]. congruence.
  - destruct (simplify_value_trailing v n rest H H0) as [E S].
    apply S. congruence.
  - intros n rest Hn Hr Hs.
    rewrite (simplify_value_unchanged v n rest Hn Hr Hs) in Hv. congruence.
Qed.

Lemma simplify_dic_per_field_witness :
  exists dic',
    simplify_dic example_fields = Ok dic' /\
    forall key v, example_fields !! key = Some v ->
      exists v',
        dic' !! key = Some v' /\
        (forall rest, Np.shape v = 1%nat :: rest ->
           Np.getitem0 v = Ok v' /\ Np.shape v' = rest) /\
        (forall n rest, n <> 1%nat -> Np.shape v = n :: 1%nat :: rest ->
           Np.getcol0 v = Ok v' /\ Np.shape v' = n :: rest) /\
        (forall n rest, n <> 1%nat -> hd 0%nat rest <> 1%nat ->
           Np.shape v = n :: rest -> v' = v).
Proof.
  apply (simplify_dic_per_field example_fields).
  unfold example_fields.
  repeat (apply map_Forall_insert_2; [reflexivity|]).
  apply map_Forall_empty.
Defined.

(** The three shapes of the specification: (1, 5) and (5, 1) become (5),
    and (1, 1) becomes (1). *)
Example simplify_shapes :
  (fun dic : dict => (fun v => Np.shape v) <$> dic) <$> simplify_dic example_fields
  = Ok (<["A":=[5%nat]]> (<["B":=[5%nat]]> (<["C":=[1%nat]]> ∅))).
Proof. vm_compute. reflexivity. Qed.

(** C5 (counterexample). A field of shape (1, 1) does not collapse to a
    scalar: its leading axis is dropped and a vector of one element is
    left. *)
Lemma simplify_dic_1x1_not_scalar :
  ~ (forall (dic dic' : dict) (key : string) (v v' : ndarray),
       simplify_dic dic = Ok dic' -> dic !! key = Some v ->
       Np.shape v = [1%nat; 1%nat] -> dic' !! key = Some v' -> Np.shape v' = []).
Proof.
  intros H.
  specialize (H {["C" := Np.mat [floats [1]]]} {["C" := Np.vec (floats [1])]}
                "C" (Np.mat [floats [1]]) (Np.vec (floats [1]))).
  discriminate H; reflexivity.
Qed.

(** ** Object selection *)

Section in1d.
Context {A : Type} `{EqDecision A}.

Lemma filter_imap_snd (P : A -> Prop) `{forall x, Decision (P x)}
    (f : nat -> nat) (l : list A) :
  (fun p : nat * A => p.2) <$>
    filter (fun p : nat * A => P p.2) (imap (fun i x => (f i, x)) l)
  = filter P l.
Proof.
  revert f. induction l as [|x l IH]; intros f; [reflexivity|].
  rewrite imap_cons, !filter_cons. simpl.
  rewrite <- (IH (f ∘ S)).
  destruct (decide (P x)); [rewrite fmap_cons|]; reflexivity.
Qed.

Lemma filter_imap_lookup (P : A -> Prop) `{forall x, Decision (P x)}
    (l : list A) (p : nat * A) :
  p ∈ filter (fun p : nat * A => P p.2) (imap pair l) <->
  l !! p.1 = Some p.2 /\ P p.2.
Proof.
  rewrite list_elem_of_filter, elem_of_lookup_imap. split.
  - intros (HP & i & x & -> & Hl). simpl. auto.
  - intros (Hl & HP). split; [exact HP|]. exists p.1, p.2.
    split; [destruct p; reflexivity | exact Hl].
Qed.


(** The positions found are those whose element is asked for. *)
Lemma in1d_nonzero_spec (ar1 ar2 : list A) (i : Z) :
  i ∈ in1d_nonzero ar1 ar2 <->
  0 <= i /\ exists x, ar1 !! Z.to_nat i = Some x /\ x ∈ ar2.
Proof.
  unfold in1d_nonzero. rewrite list_elem_of_fmap. split.
  - intros ([n x] & -> & Hp).
    pose proof (filter_imap_lookup (fun x => x ∈ ar2) ar1 (n, x)) as HH.
    destruct (proj1 HH Hp) as [Hl Hx].
    simpl in *. rewrite Nat2Z.id. split; [lia | eauto].
  - intros (Hi & x & Hl & Hx). exists (Z.to_nat i, x). split.
    + simpl. lia.
    + pose proof (filter_imap_lookup (fun x => x ∈ ar2) ar1 (Z.to_nat i, x)) as HH.
      apply (proj2 HH). auto.
Qed.


(** Reading the catalogue at the positions found gives the elements asked
    for, in catalogue order. *)
Lemma np_take_in1d (ar1 ar2 : list A) :
  np_take ar1 (Rows (in1d_nonzero ar1 ar2)) = Ok (filter (fun x => x ∈ ar2) ar1).
Proof.
  unfold np_take, in1d_nonzero.
  rewrite <- (filter_imap_snd (fun x => x ∈ ar2) (fun i => i) ar1).
  set (ps := filter _ _).
  assert (Hps : Forall (fun p : nat * A => ar1 !! p.1 = Some p.2) ps).
  { apply Forall_forall. intros p Hp.
    pose proof (filter_imap_lookup (fun x => x ∈ ar2) ar1 p) as HH.
    apply (proj1 HH Hp). }
  clearbody ps. induction Hps as [|[n x] ps Hn _ IH]; [reflexivity|].
  rewrite !fmap_cons. simpl in *. rewrite IH.
  unfold np_index. apply lookup_lt_Some in Hn as Hlt.
  destruct (Z.leb_spec 0 (Z.of_nat n)); [|lia].
  destruct (Z.ltb_spec (Z.of_nat n) (Z.of_nat (length ar1))); [|lia].
  simpl. rewrite Nat2Z.id, Hn. reflexivity.
Qed.
End in1d.

(** Reading rows that exist returns them, in the order asked. *)
Lemma np_index_nonneg {A} (a : list A) (i : Z) (x : A) :
  0 <= i -> np_index a i = Ok x <-> a !! Z.to_nat i = Some x.
Proof.
  intros Hi. unfold np_index.
  destruct (Z.leb_spec 0 i); [|lia].
  destruct (Z.ltb_spec i (Z.of_nat (length a))); simpl.
  - apply of_option_Ok.
  - destruct (Z.leb_spec (- Z.of_nat (length a)) i); simpl;
      (destruct (Z.ltb_spec i 0); [lia|]); simpl;
      (split; [discriminate|]);
      intros Hl%lookup_lt_Some; lia.
Qed.


Lemma filter_ext_elem {A} (P1 P2 : A -> Prop)
    `{!forall x, Decision (P1 x), !forall x, Decision (P2 x)} (l : list A) :
  (forall x, x ∈ l -> P1 x <-> P2 x) -> filter P1 l = filter P2 l.
Proof.
  induction l as [|a l IH]; intros HP; [reflexivity|].
  assert (E : filter P1 l = filter P2 l).
  { apply IH. intros x Hx. apply HP. right. exact Hx. }
  pose proof (HP a (list_elem_of_here a l)) as Ha.
  destruct (decide (P1 a)).
  - rewrite !filter_cons_True by tauto. rewrite E. reflexivity.
  - rewrite !filter_cons_False by tauto. exact E.
Qed.

Lemma reader_valid_cases fitsreader :
  reader_is_pyfits fitsreader || reader_is_fitsio fitsreader = true ->
  forall fnames, catalogue_objids fnames fitsreader = catalogue_ids fnames.
Proof.
  intros H fnames. unfold catalogue_objids, catalogue_ids.
  destruct (reader_is_pyfits fitsreader); [reflexivity|].
  destruct (reader_is_fitsio fitsreader); [reflexivity | discriminate].
Qed.


(** What [get_indobjs_from_objids] computes from the stripped identifier
    column. *)
Lemma get_indobjs_from_objids_eq fnames obj_list fitsreader ids_all :
  catalogue_objids fnames fitsreader = Ok ids_all ->
  get_indobjs_from_objids fnames obj_list fitsreader
  = Ok (in1d_nonzero ids_all obj_list,
        filter (fun s => s ∈ obj_list) ids_all,
        warn_not_found <$> filter (fun s => s ∉ ids_all) obj_list).
Proof.
  intros H. unfold get_indobjs_from_objids. rewrite H. bind_simpl.
  rewrite np_take_in1d. bind_simpl. do 3 f_equal.
  apply filter_ext_elem. intros s Hs.
  rewrite list_elem_of_filter. tauto.
Qed.

(** C8. Once the catalogue is read (a reader of one of the four accepted
    names, an [OBJ_ID] column of strings) [get_indobjs_from_objids] returns
    for every request list: the rows and identifiers it returns are exactly
    those of the catalogue identifiers, white space stripped, that the
    request names; every requested identifier that the catalogue lacks gives
    one warning and is dropped. *)
Theorem get_indobjs_partial_match
    (fnames : fileset) (obj_list : list string) (fitsreader : string)
    (ids_all : list string) :
  reader_is_pyfits fitsreader || reader_is_fitsio fitsreader = true ->
  catalogue_ids fnames = Ok ids_all ->
  exists ind_objs obj_ids warnings,
    get_indobjs_from_objids fnames obj_list fitsreader
    = Ok (ind_objs, obj_ids, warnings)
    /\ (forall s, s ∈ obj_ids <-> s ∈ obj_list /\ s ∈ ids_all)
    /\ (forall i, i ∈ ind_objs <->
          0 <= i /\ exists s, ids_all !! Z.to_nat i = Some s /\ s ∈ obj_list)
    /\ Forall2 (fun i s => ids_all !! Z.to_nat i = Some s) ind_objs obj_ids
    /\ warnings = warn_not_found <$> filter (fun s => s ∉ ids_all) obj_list.
Proof.
  intros Hr Hc. rewrite <- (reader_valid_cases _ Hr) in Hc.
  eexists _, _, _. split; [apply get_indobjs_from_objids_eq, Hc|].
  split; [|split; [|split]].
  - intros s. rewrite list_elem_of_filter. tauto.
  - apply in1d_nonzero_spec.
  - pose proof (np_take_in1d ids_all obj_list) as T. simpl in T.
    apply outcome_mapM_Ok in T.
    pose proof (in1d_nonzero_spec ids_all obj_list) as S.
    assert (F : Forall (fun i => 0 <= i) (in1d_nonzero ids_all obj_list)).
    { apply Forall_forall. intros i Hi. apply S in Hi. tauto. }
    clear S. induction T as [|i s l k Hi _ IH]; constructor.
    + apply np_index_nonneg in Hi; [exact Hi|]. inversion F; assumption.
    + apply IH. inversion F; assumption.
  - reflexivity.
Qed.

Lemma get_indobjs_partial_match_witness :
  exists ind_objs obj_ids warnings,
    get_indobjs_from_objids example_files ["000046"; "999999"] "fitsio"
    = Ok (ind_objs, obj_ids, warnings)
    /\ (forall s, s ∈ obj_ids <->
          s ∈ ["000046"; "999999"] /\ s ∈ ["000001"; "000046"; "001337"; "002000"])
    /\ (forall i, i ∈ ind_objs <->
          0 <= i /\ exists s,
            ["000001"; "000046"; "001337"; "002000"] !! Z.to_nat i = Some s
            /\ s ∈ ["000046"; "999999"])
    /\ Forall2 (fun i s =>
                  ["000001"; "000046"; "001337"; "002000"] !! Z.to_nat i = Some s)
               ind_objs obj_ids
    /\ warnings = warn_not_found <$>
                    filter (fun s => s ∉ ["000001"; "000046"; "001337"; "002000"])
                           ["000046"; "999999"].
Proof.
  apply (get_indobjs_partial_match example_files ["000046"; "999999"] "fitsio"
           ["000001"; "000046"; "001337"; "002000"]); reflexivity.
Defined.

(** The request of the specification: the identifier 999999 is not in the
    catalogue, the call returns the other one and one warning. *)
Example get_indobjs_absent_identifier :
  get_indobjs_from_objids example_files ["000046"; "999999"] "fitsio"
  = Ok ([1], ["000046"], ["obj_id 999999 not found in fits file."]).
Proof. vm_compute. reflexivity. Qed.

(** *** Sorting *)



















(** The round trip of the specification: the identifiers 000046 and 001337
    give the rows 1 and 2, and these rows give the identifiers back. *)
Example get_obj_inds_round_trip :
  get_obj_inds example_files (Some (SSeq [PStr "000046"; PStr "001337"])) None
               "fits" "fitsio"
  = Ok (Rows [1; 2], ["000046"; "001337"], [])
  /\ get_obj_inds example_files None (Some (SSeq [PInt 1; PInt 2])) "python" "fitsio"
     = Ok (Rows [1; 2], ["000046"; "001337"], []).
Proof. split; vm_compute; reflexivity. Qed.

(** *** Row numbers counted from 1 *)

Lemma contains_zero_ints (zs : list Z) :
  contains_zero (PInt <$> zs) = bool_decide (0 ∈ zs).
Proof.
  induction zs as [|z zs IH]; [reflexivity|].
  rewrite fmap_cons. simpl. rewrite IH.
  destruct z; simpl;
    repeat match goal with
      | |- context [bool_decide ?P] => destruct (bool_decide_reflect P)
      end; try reflexivity; exfalso;
    rewrite ?elem_of_cons in *; intuition congruence.
Qed.

Lemma shift_down_ints (zs : list Z) :
  shift_down (PInt <$> zs) = Ok (PInt <$> ((fun x => x - 1) <$> zs)).
Proof.
  unfold shift_down. induction zs as [|z zs IH]; [reflexivity|].
  rewrite !fmap_cons. simpl. rewrite IH. reflexivity.
Qed.

Lemma as_index_ints (zs : list Z) : as_index (PInt <$> zs) = Ok zs.
Proof.
  unfold as_index. induction zs as [|z zs IH]; [reflexivity|].
  rewrite !fmap_cons. simpl. rewrite IH. reflexivity.
Qed.

(** The three inline forms of [obj_row] under the counting from 1: a 0
    among the values keeps them all and gives the warning; otherwise every
    value is shifted by -1. *)
Lemma obj_row_inline_forms (fnames : fileset) :
  (forall z zs,
     requested_rows fnames (SSeq (PInt <$> (z :: zs))) "fits"
     = Ok (if bool_decide (0 ∈ z :: zs) then (z :: zs, [warn_zero_row])
           else ((fun x => x - 1) <$> (z :: zs), [])))
  /\ (forall s z,
        fs_text fnames s = None -> PyStr.int s = Some z ->
        requested_rows fnames (SStr s) "fits"
        = Ok (if bool_decide (0 ∈ [z]) then ([z], [warn_zero_row])
              else ([z - 1], [])))
  /\ (forall z,
        requested_rows fnames (SInt z) "fits"
        = Ok (if bool_decide (0 ∈ [z]) then ([z], [warn_zero_row])
              else ([z - 1], []))).
Proof.
  assert (G : forall zs,
             (fits_to_python "fits" (PInt <$> zs) ≫=
                fun '(ind_objs, w) => rows ← as_index ind_objs; Ok (rows, w))
             = Ok (if bool_decide (0 ∈ zs) then (zs, [warn_zero_row])
                   else ((fun x => x - 1) <$> zs, []))).
  { intros zs. unfold fits_to_python. simpl String.eqb. cbv iota.
    rewrite contains_zero_ints. destruct (bool_decide (0 ∈ zs)); bind_simpl.
    - rewrite as_index_ints. reflexivity.
    - rewrite shift_down_ints. bind_simpl. rewrite as_index_ints. reflexivity. }
  split; [|split].
  - intros z zs. exact (G (z :: zs)).
  - intros s z Hf Hz. unfold requested_rows. rewrite Hf, Hz. exact (G [z]).
  - intros z. exact (G [z]).
Qed.

(** The file form has no test for 0: every value is shifted. *)
Lemma obj_row_file_form (fnames : fileset) (path : string) (values : list string)
    (zs : list Z) :
  fs_text fnames path = Some values ->
  loadtxt_int values = Ok (inl zs) ->
  requested_rows fnames (SStr path) "fits" = Ok ((fun x => x - 1) <$> zs, []).
Proof.
  intros Hf Hl. unfold requested_rows. rewrite Hf, Hl. reflexivity.
Qed.

(** C7 (failing input). A file of row numbers that holds 0 and 3, read
    under the counting from 1: no warning, and both values are shifted, so
    that the rows asked for are -1 (the last row, for numpy) and 2. *)
Lemma obj_row_file_zero_is_shifted :
  requested_rows example_files (SStr "rows.txt") "fits" = Ok ([-1; 2], [])
  /\ get_obj_inds example_files None (Some (SStr "rows.txt")) "fits" "pyfits"
     = Ok (Rows [-1; 2], ["001337"; "002000"], [])
  /\ get_obj_inds example_files None (Some (SSeq [PInt 0; PInt 3])) "fits" "pyfits"
     = Ok (Rows [0; 3], ["000001"; "002000"], [warn_zero_row]).
Proof. repeat split; vm_compute; reflexivity. Qed.

(** ** The two readers *)

(** C2 (failing input). One object without a candidate of rank 1 and the
    candidate field PERIOD: the placeholder of [pyfits_get_data] is 0.0,
    that of [fitsio_get_data] is NaN. *)
Lemma backends_differ_on_placeholder :
  exists d1 d2,
    pyfits_get_data example_files ["000001"] (Rows [0]) ["PERIOD"; "OBJ_ID"] 1 All
    = Ok d1
    /\ fitsio_get_data example_files ["000001"] (Rows [0]) ["PERIOD"; "OBJ_ID"] 1 All
       = Ok d2
    /\ d1 !! "PERIOD" = Some (Np.vec [CFloat 0])
    /\ d2 !! "PERIOD" = Some (Np.vec [CNaN])
    /\ d1 <> d2.
Proof.
  eexists _, _. split; [vm_compute; reflexivity|].
  split; [vm_compute; reflexivity|].
  split; [vm_compute; reflexivity|].
  split; [vm_compute; reflexivity|].
  intros E. apply (f_equal (fun d : dict => d !! "PERIOD")) in E.
  vm_compute in E. discriminate E.
Qed.

(** With a candidate of the rank asked for, both readers start from NaN. *)
Example backends_agree_with_candidate :
  pyfits_get_data example_files ["000001"; "000046"] (Rows [0; 1])
                  ["PERIOD"; "OBJ_ID"] 1 All
  = fitsio_get_data example_files ["000001"; "000046"] (Rows [0; 1])
                    ["PERIOD"; "OBJ_ID"] 1 All.
Proof. vm_compute. reflexivity. Qed.

(** ** Flag-driven invalidation *)

(** Induction on arrays, with the hypothesis for every sub-array. *)
Lemma ndarray_nested_ind (P : ndarray -> Prop) :
  (forall c, P (Item c)) ->
  (forall l, Forall P l -> P (Arr l)) ->
  forall a, P a.
Proof.
  intros HI HA.
  refine (fix IH (a : ndarray) : P a :=
            match a with
            | Item c => HI c
            | Arr l =>
                HA l ((fix go (l : list ndarray) : Forall P l :=
                         match l with
                         | [] => @List.Forall_nil _ P
                         | x :: l' => @List.Forall_cons _ P x l' (IH x) (go l')
                         end) l)
            end).
Qed.

Lemma where_gt0_Arr l : Np.where_gt0 (Arr l) = where_list 0 l.
Proof. reflexivity. Qed.

Lemma mask_Arr lf lx : Np.mask (Arr lf) (Arr lx) = Arr (mask_list lf lx).
Proof. reflexivity. Qed.

Lemma same_shape_Arr l k : Np.same_shape (Arr l) (Arr k) = same_shape_list l k.
Proof. reflexivity. Qed.

Lemma all_cells_Arr P l : Np.all_cells P (Arr l) = all_cells_list P l.
Proof.
  simpl. induction l as [|x l IH]; [reflexivity|]. simpl. rewrite IH. reflexivity.
Qed.

Lemma set_nan_each_app ps qs a :
  Np.set_nan_each (ps ++ qs) a = Np.set_nan_each ps a ≫= Np.set_nan_each qs.
Proof.
  revert a. induction ps as [|p ps IH]; intros a; [reflexivity|].
  simpl. destruct (Np.set_nan_at p a); [|reflexivity..]. bind_simpl. apply IH.
Qed.

(** Index tuples that all start with [i] change the sub-array [i] only. *)
Lemma set_nan_each_child ps l i xi xi' :
  l !! i = Some xi ->
  Np.set_nan_each ps xi = Ok xi' ->
  Np.set_nan_each ((i ::.) <$> ps) (Arr l) = Ok (Arr (<[i:=xi']> l)).
Proof.
  revert l xi. induction ps as [|p ps IH]; intros l xi Hl H.
  - simpl in *. injection H as <-. rewrite list_insert_id by assumption. reflexivity.
  - rewrite fmap_cons. simpl in *. rewrite Hl.
    destruct (Np.set_nan_at p xi) as [y| |]; try discriminate H.
    bind_simpl. bind_simpl in H.
    rewrite (IH (<[i:=y]> l) y).
    + rewrite list_insert_insert_eq. reflexivity.
    + apply list_lookup_insert_eq. eapply lookup_lt_Some, Hl.
    + exact H.
Qed.

Lemma cell_gt0_number c : Np.is_number c = true -> Np.cell_gt0 c = Ok (Np.flagged c).
Proof. destruct c; simpl; try reflexivity; discriminate. Qed.

(** On an array of floats of the shape of the flags, storing NaN at the
    positions [np.where] finds gives the masked array. *)
Lemma set_nan_each_mask flags :
  forall x,
    Np.all_cells Np.is_number flags = true ->
    Np.same_shape flags x = true ->
    Np.all_cells Np.is_float x = true ->
    exists ps, Np.where_gt0 flags = Ok ps
               /\ Np.set_nan_each ps x = Ok (Np.mask flags x).
Proof.
  induction flags as [f|lf IH] using ndarray_nested_ind; intros x Hn Hs Hf.
  - destruct x as [c|]; [|discriminate]. simpl in Hn, Hf |- *.
    rewrite (cell_gt0_number f Hn). bind_simpl.
    destruct (Np.flagged f); eexists; (split; [reflexivity|]); [|reflexivity].
    destruct c; try discriminate; reflexivity.
  - destruct x as [|lx]; [discriminate|].
    rewrite where_gt0_Arr, mask_Arr. rewrite same_shape_Arr in Hs.
    rewrite all_cells_Arr in Hn, Hf.
    assert (G : forall pre,
               exists ps, where_list (length pre) lf = Ok ps
                          /\ Np.set_nan_each ps (Arr (pre ++ lx))
                             = Ok (Arr (pre ++ mask_list lf lx))).
    { revert lx Hs Hf Hn. induction IH as [|f lf Hfx _ IHl]; intros lx Hs Hf Hn pre.
      - destruct lx; [|discriminate]. exists []. split; reflexivity.
      - destruct lx as [|y lx]; [discriminate|]. simpl in Hs, Hf, Hn.
        apply andb_true_iff in Hs as [Hs1 Hs2].
        apply andb_true_iff in Hf as [Hf1 Hf2].
        apply andb_true_iff in Hn as [Hn1 Hn2].
        destruct (Hfx y Hn1 Hs1 Hf1) as (ps & Hps & Hset).
        destruct (IHl lx Hs2 Hf2 Hn2 (pre ++ [Np.mask f y])) as (qs & Hqs & Hset').
        rewrite length_app in Hqs. simpl in Hqs.
        rewrite Nat.add_1_r in Hqs.
        exists (((length pre ::.) <$> ps) ++ qs). split.
        + simpl. rewrite Hps. bind_simpl. rewrite Hqs. reflexivity.
        + rewrite set_nan_each_app.
          rewrite (set_nan_each_child ps (pre ++ y :: lx) (length pre) y (Np.mask f y)).
          * bind_simpl. rewrite insert_app_r_alt by lia.
            rewrite Nat.sub_diag. simpl.
            rewrite <- !app_assoc in Hset'. simpl in Hset'. exact Hset'.
          * rewrite lookup_app_r by lia. rewrite Nat.sub_diag. reflexivity.
          * exact Hset. }
    exact (G []).
Qed.

Lemma int_dtype_Arr l : Np.int_dtype (Arr l) = existsb Np.int_dtype l.
Proof.
  simpl. induction l as [|x l IH]; [reflexivity|]. simpl. rewrite IH. reflexivity.
Qed.

(** An array of floats is no integer array. *)
Lemma float_not_int x : Np.all_cells Np.is_float x = true -> Np.int_dtype x = false.
Proof.
  induction x as [c|l IH] using ndarray_nested_ind; intros H.
  - destruct c; try discriminate H; reflexivity.
  - rewrite all_cells_Arr in H. rewrite int_dtype_Arr.
    induction IH as [|x l Hx _ IHl]; [reflexivity|]. simpl in H |- *.
    apply andb_true_iff in H as [H1 H2]. rewrite (Hx H1), (IHl H2). reflexivity.
Qed.

(** The store of NaN at the positions [np.where] returns, in a float array
    of the shape of the flags, is the mask. *)
Lemma set_nan_where_mask flags :
  forall x,
    Np.all_cells Np.is_number flags = true ->
    Np.same_shape flags x = true ->
    Np.all_cells Np.is_float x = true ->
    exists ps, Np.where_gt0 flags = Ok ps
               /\ Np.set_nan_where ps x = Ok (Np.mask flags x).
Proof.
  intros x Hn Hs Hf. destruct (set_nan_each_mask flags x Hn Hs Hf) as (ps & Hps & Hset).
  exists ps. split; [exact Hps|].
  unfold Np.set_nan_where. rewrite (float_not_int x Hf). exact Hset.
Qed.

Lemma mask_list_lookup lf lx i f y :
  lf !! i = Some f -> lx !! i = Some y ->
  mask_list lf lx !! i = Some (Np.mask f y).
Proof.
  revert lx i. induction lf as [|f' lf IH]; intros [|y' lx] [|i] Hf Hy;
    simpl in *; try discriminate.
  - congruence.
  - apply IH; assumption.
Qed.

(** Position by position: NaN where the flag is set, the old value
    elsewhere. *)
Lemma mask_get_path p :
  forall flags x f c,
    Np.get_path p flags = Some (Item f) ->
    Np.get_path p x = Some (Item c) ->
    Np.get_path p (Np.mask flags x)
    = Some (Item (if Np.flagged f then CNaN else c)).
Proof.
  induction p as [|i p IH]; intros flags x f c Hf Hx.
  - simpl in *. injection Hf as ->. injection Hx as ->. reflexivity.
  - destruct flags as [|lf]; [discriminate|]. destruct x as [|lx]; [discriminate|].
    rewrite mask_Arr. cbn [Np.get_path] in *.
    destruct (lf !! i) as [fi|] eqn:Hfi; [|discriminate].
    destruct (lx !! i) as [xi|] eqn:Hxi; [|discriminate].
    rewrite (mask_list_lookup lf lx i fi xi Hfi Hxi). simpl in *.
    apply IH; assumption.
Qed.

Lemma alter_present (g : ndarray -> ndarray) (key : string) (a : ndarray) (dic : dict) :
  dic !! key = Some a -> <[key:=g a]> dic = alter g key dic.
Proof.
  intros H. apply map_eq. intros k. destruct (decide (key = k)) as [->|Hne].
  - rewrite lookup_insert_eq, lookup_alter_eq, H. reflexivity.
  - rewrite lookup_insert_ne, lookup_alter_ne by assumption. reflexivity.
Qed.

(** The loop over the measurement keys, when the update succeeds on every
    key present. *)
Lemma update_present_total (f : ndarray -> outcome ndarray) (g : ndarray -> ndarray)
    (keys : list string) :
  NoDup keys ->
  forall dic : dict,
    (forall key a, key ∈ keys -> dic !! key = Some a -> f a = Ok (g a)) ->
    exists dic',
      update_present f keys dic = Ok dic'
      /\ forall key,
          dic' !! key = if bool_decide (key ∈ keys) then g <$> dic !! key
                        else dic !! key.
Proof.
  induction 1 as [|k keys Hk Hnd IH]; intros dic Hf.
  - exists dic. split; [reflexivity|]. intros key.
    rewrite bool_decide_eq_false_2 by apply not_elem_of_nil. reflexivity.
  - simpl. destruct (dic !! k) as [a|] eqn:Ha.
    + rewrite (Hf k a (list_elem_of_here _ _) Ha). bind_simpl.
      rewrite (alter_present g k a dic Ha).
      destruct (IH (alter g k dic)) as (dic' & Hd & Hl).
      { intros key b Hin Hb. apply (Hf key b); [right; exact Hin|].
        rewrite lookup_alter_ne in Hb; [exact Hb|]. intros ->. contradiction. }
      exists dic'. split; [exact Hd|]. intros key. rewrite Hl.
      destruct (decide (key = k)) as [->|Hne].
      * rewrite (bool_decide_eq_false_2 (k ∈ keys)) by assumption.
        rewrite bool_decide_eq_true_2 by left.
        rewrite lookup_alter_eq. reflexivity.
      * rewrite lookup_alter_ne by congruence.
        destruct (bool_decide_reflect (key ∈ keys)) as [Hin|Hin].
        -- rewrite bool_decide_eq_true_2 by (right; exact Hin). reflexivity.
        -- rewrite bool_decide_eq_false_2; [reflexivity|].
           intros [->|Hin']%elem_of_cons; contradiction.
    + destruct (IH dic) as (dic' & Hd & Hl).
      { intros key b Hin Hb. apply (Hf key b); [right; exact Hin | exact Hb]. }
      exists dic'. split; [exact Hd|]. intros key. rewrite Hl.
      destruct (decide (key = k)) as [->|Hne].
      * rewrite (bool_decide_eq_false_2 (k ∈ keys)) by assumption.
        rewrite bool_decide_eq_true_2 by left. rewrite Ha. reflexivity.
      * destruct (bool_decide_reflect (key ∈ keys)) as [Hin|Hin].
        -- rewrite bool_decide_eq_true_2 by (right; exact Hin). reflexivity.
        -- rewrite bool_decide_eq_false_2; [reflexivity|].
           intros [->|Hin']%elem_of_cons; contradiction.
Qed.

Lemma nan_keys_NoDup : NoDup nan_keys.
Proof. apply (bool_decide_unpack (NoDup nan_keys)). vm_compute. exact I. Qed.

(** [np.where] returns on an array of numbers. *)
Lemma where_gt0_total flags :
  Np.all_cells Np.is_number flags = true -> exists ps, Np.where_gt0 flags = Ok ps.
Proof.
  induction flags as [f|lf IH] using ndarray_nested_ind; intros Hn.
  - simpl in *. rewrite (cell_gt0_number f Hn). bind_simpl. eauto.
  - rewrite where_gt0_Arr. rewrite all_cells_Arr in Hn. generalize 0%nat.
    induction IH as [|f lf Hf _ IHl]; intros i; [simpl; eauto|].
    simpl in Hn. apply andb_true_iff in Hn as [Hn1 Hn2].
    destruct (Hf Hn1) as [ps Hps]. destruct (IHl Hn2 (S i)) as [qs Hqs].
    simpl. rewrite Hps. bind_simpl. rewrite Hqs. bind_simpl. eauto.
Qed.

(** One object: [set_nan_single]. *)
Lemma set_nan_single_spec (dic : dict) (flags : ndarray) :
  dic !! "FLAGS" = Some flags ->
  Np.is_item flags = false ->
  Np.all_cells Np.is_number flags = true ->
  (forall key x, key ∈ nan_keys -> dic !! key = Some x ->
     Np.same_shape flags x = true /\ Np.all_cells Np.is_float x = true) ->
  exists dic',
    set_nan_single dic = Ok dic'
    /\ forall key,
        dic' !! key = if bool_decide (key ∈ nan_keys)
                      then Np.mask flags <$> dic !! key else dic !! key.
Proof.
  intros Hfl Hit Hn Hx. unfold set_nan_single, getitem. rewrite Hfl. bind_simpl.
  destruct flags as [|lf]; [discriminate|].
  change (Np.np_where_gt0 (Arr lf)) with (Np.where_gt0 (Arr lf)).
  destruct (where_gt0_total (Arr lf) Hn) as [ps Hps]. rewrite Hps. bind_simpl.
  apply (update_present_total _ _ nan_keys nan_keys_NoDup).
  intros key a Hin Ha. destruct (Hx key a Hin Ha) as [Hs Hf].
  destruct (set_nan_where_mask (Arr lf) a Hn Hs Hf) as (ps' & Hps' & Hset).
  congruence.
Qed.

(** [np.where] on a vector returns one-element index tuples. *)
Lemma where_vector l :
  forallb Np.is_item l = true -> all_cells_list Np.is_number l = true ->
  forall i, exists js, where_list i l = Ok ((fun j => [j]) <$> js).
Proof.
  induction l as [|x l IH]; intros Hv Hn i; [exists []; reflexivity|].
  simpl in Hv, Hn. apply andb_true_iff in Hv as [Hx Hv].
  apply andb_true_iff in Hn as [Hnx Hn].
  destruct x as [c|]; [|discriminate]. destruct (IH Hv Hn (S i)) as [js Hjs].
  simpl in Hnx |- *. rewrite (cell_gt0_number c Hnx). bind_simpl.
  rewrite Hjs. bind_simpl.
  destruct (Np.flagged c); [exists (i :: js) | exists js]; reflexivity.
Qed.

Lemma singleton_concat (js : list nat) :
  (fun j => [j]) <$> concat ((fun j => [j]) <$> js) = (fun j => [j]) <$> js.
Proof.
  induction js as [|j js IH]; [reflexivity|].
  rewrite !fmap_cons. change (concat ([j] :: ((fun j => [j]) <$> js)))
    with (j :: concat ((fun j => [j]) <$> js)).
  rewrite fmap_cons, IH. reflexivity.
Qed.

(** One turn of the loop of [set_nan_multi] on one field: the row of the
    object is masked by the flags of the object. *)
Lemma set_nan_row_mask o flag_row ind l row :
  Np.np_where_gt0 flag_row = Ok ind ->
  Np.is_vector flag_row = true ->
  Np.all_cells Np.is_number flag_row = true ->
  l !! o = Some row ->
  Np.same_shape flag_row row = true ->
  Np.all_cells Np.is_float row = true ->
  Np.set_nan_row o ind (Arr l) = Ok (mask_row o flag_row (Arr l)).
Proof.
  intros Hw Hv Hn Hl Hs Hf.
  destruct flag_row as [|lf]; [discriminate|].
  change (Np.np_where_gt0 (Arr lf)) with (Np.where_gt0 (Arr lf)) in Hw.
  pose proof Hn as Hn'. rewrite all_cells_Arr in Hn'.
  destruct (where_vector lf Hv Hn' 0%nat) as [js Hjs].
  rewrite <- where_gt0_Arr, Hw in Hjs. injection Hjs as ->.
  destruct (set_nan_where_mask (Arr lf) row Hn Hs Hf) as (ps & Hps & Hset).
  rewrite Hw in Hps. injection Hps as <-.
  unfold Np.set_nan_row, mask_row. rewrite Hl.
  destruct row as [|lr]; [discriminate|].
  rewrite singleton_concat, Hset. reflexivity.
Qed.

(** The loop of [set_nan_multi] over the objects, from object [o] on. *)
Lemma set_nan_rows_spec (rows : list ndarray) :
  forallb Np.is_vector rows = true ->
  all_cells_list Np.is_number rows = true ->
  forall (o : nat) (dic : dict),
    (forall key x, key ∈ nan_keys -> dic !! key = Some x ->
       exists pre todo,
         x = Arr (pre ++ todo) /\ length pre = o
         /\ same_shape_list rows todo = true
         /\ all_cells_list Np.is_float todo = true) ->
    exists dic',
      set_nan_rows o rows dic = Ok dic'
      /\ (forall key, key ∉ nan_keys -> dic' !! key = dic !! key)
      /\ (forall key, dic !! key = None -> dic' !! key = None)
      /\ (forall key pre todo,
            key ∈ nan_keys -> dic !! key = Some (Arr (pre ++ todo)) ->
            length pre = o ->
            dic' !! key = Some (Arr (pre ++ mask_list rows todo))).
Proof.
  induction rows as [|frow rows IH]; intros Hv Hn o dic Hx.
  - exists dic. split; [reflexivity|]. repeat split; auto.
  - simpl in Hv, Hn. apply andb_true_iff in Hv as [Hv1 Hv].
    apply andb_true_iff in Hn as [Hn1 Hn].
    assert (Hw : exists ind, Np.np_where_gt0 frow = Ok ind).
    { destruct frow as [|lf]; [discriminate|]. apply where_gt0_total. exact Hn1. }
    destruct Hw as [ind Hw].
    destruct (update_present_total (Np.set_nan_row o ind) (mask_row o frow)
                nan_keys nan_keys_NoDup dic) as (dic1 & Hd1 & Hl1).
    { intros key a Hin Ha.
      destruct (Hx key a Hin Ha) as (pre & todo & -> & Hlen & Hs & Hf).
      destruct todo as [|row todo]; [discriminate|]. simpl in Hs, Hf.
      apply andb_true_iff in Hs as [Hs1 _]. apply andb_true_iff in Hf as [Hf1 _].
      apply (set_nan_row_mask o frow ind _ row); try assumption.
      rewrite lookup_app_r by lia. rewrite Hlen, Nat.sub_diag. reflexivity. }
    assert (Hrow : forall pre row todo,
               length pre = o ->
               mask_row o frow (Arr (pre ++ row :: todo))
               = Arr ((pre ++ [Np.mask frow row]) ++ todo)).
    { intros pre row todo Hlen. unfold mask_row.
      rewrite lookup_app_r by lia. rewrite Hlen, Nat.sub_diag. simpl.
      rewrite insert_app_r_alt by lia. rewrite Hlen, Nat.sub_diag. simpl.
      rewrite <- app_assoc. reflexivity. }
    destruct (IH Hv Hn (S o) dic1) as (dic' & Hd & Hout & Hnone & Hin').
    { intros key x Hin Hk. rewrite Hl1 in Hk.
      rewrite bool_decide_eq_true_2 in Hk by assumption.
      destruct (dic !! key) as [a|] eqn:Ha; [|discriminate]. injection Hk as <-.
      destruct (Hx key a Hin Ha) as (pre & todo & -> & Hlen & Hs & Hf).
      destruct todo as [|row todo]; [discriminate|]. simpl in Hs, Hf.
      apply andb_true_iff in Hs as [_ Hs2]. apply andb_true_iff in Hf as [_ Hf2].
      exists (pre ++ [Np.mask frow row]), todo. rewrite Hrow by assumption.
      repeat split; try assumption. rewrite length_app. simpl. lia. }
    exists dic'. split; [cbn [set_nan_rows]; rewrite Hw; bind_simpl; rewrite Hd1; exact Hd|].
    split; [|split].
    + intros key Hk. rewrite (Hout key Hk), Hl1.
      rewrite bool_decide_eq_false_2 by assumption. reflexivity.
    + intros key Hk. apply Hnone. rewrite Hl1, Hk. destruct (bool_decide _); reflexivity.
    + intros key pre todo Hin Hk Hlen.
      destruct (Hx key _ Hin Hk) as (pre' & todo' & E & Hlen' & Hs & Hf).
      injection E as E.
      assert (pre' = pre /\ todo' = todo) as [-> ->].
      { apply app_inj_1 in E; [destruct E; split; congruence | congruence]. }
      destruct todo as [|row todo]; [discriminate|].
      simpl mask_list.
      replace (pre ++ Np.mask frow row :: mask_list rows todo)
        with ((pre ++ [Np.mask frow row]) ++ mask_list rows todo)
        by (rewrite <- app_assoc; reflexivity).
      apply Hin'; [assumption| |rewrite length_app; simpl; lia].
      rewrite Hl1, bool_decide_eq_true_2, Hk by assumption.
      cbn [fmap option_fmap option_map]. rewrite Hrow by assumption. reflexivity.
Qed.

Lemma is_matrix_rows rows :
  Np.is_matrix (Arr rows) = true -> forallb Np.is_vector rows = true.
Proof. unfold Np.is_matrix. intros H. apply andb_true_iff in H. tauto. Qed.

(** What [set_nan_dic] returns, in one or in several objects: the
    measurement fields masked by the flags, the other fields as they were. *)
Lemma set_nan_dic_mask (dic : dict) (ids : list ndarray) (flags : ndarray) :
  dic !! "OBJ_ID" = Some (Arr ids) ->
  (1 <= length ids)%nat ->
  dic !! "FLAGS" = Some flags ->
  Np.is_item flags = false ->
  Np.all_cells Np.is_number flags = true ->
  ((1 < length ids)%nat -> Np.is_matrix flags = true) ->
  map_Forall (fun key x => key ∈ nan_keys ->
                Np.same_shape flags x = true /\ Np.all_cells Np.is_float x = true)
             dic ->
  exists dic',
    set_nan_dic dic = Ok dic'
    /\ forall key,
        dic' !! key = if bool_decide (key ∈ nan_keys)
                      then Np.mask flags <$> dic !! key else dic !! key.
Proof.
  intros Hid Hn1 Hfl Hit Hnum Hmat Hx.
  unfold set_nan_dic, getitem. rewrite Hid. bind_simpl. simpl Np.len. bind_simpl.
  destruct (Nat.eqb_spec (length ids) 1) as [E|E].
  { apply (set_nan_single_spec dic flags); try assumption.
    intros key x Hin Hk. exact (Hx key x Hk Hin). }
  destruct (Nat.ltb_spec 1 (length ids)) as [Hgt|]; [|lia].
  specialize (Hmat Hgt). destruct flags as [|rows]; [discriminate|].
  unfold set_nan_multi, getitem. rewrite Hfl. bind_simpl.
  destruct (set_nan_rows_spec rows (is_matrix_rows rows Hmat)
              (eq_ind _ (fun b => b = true) Hnum _ (all_cells_Arr _ rows)) 0%nat dic)
    as (dic' & Hd & Hout & Hnone & Hin).
  { intros key x Hk Hl. destruct (Hx key x Hl Hk) as [Hs Hf].
    destruct x as [|lx]; [discriminate|].
    exists [], lx. rewrite same_shape_Arr in Hs. rewrite all_cells_Arr in Hf. auto. }
  exists dic'. split; [exact Hd|]. intros key.
  destruct (bool_decide_reflect (key ∈ nan_keys)) as [Hk|Hk]; [|auto].
  destruct (dic !! key) as [x|] eqn:Hl; [|auto].
  destruct (Hx key x Hl Hk) as [Hs _]. destruct x as [|lx]; [discriminate|].
  rewrite (Hin key [] lx Hk Hl eq_refl). reflexivity.
Qed.

Lemma flagged_int z : Np.flagged (CInt z) = (0 <? z).
Proof. reflexivity. Qed.

(** C4 (as amended). Let the dictionary hold the identifiers of [n >= 1]
    objects and a FLAGS array of numbers (of two axes when [n > 1]), and let
    every measurement field present be a float array of the shape of FLAGS.
    Then [set_nan_dic] returns; in every measurement field every position
    whose flag is greater than 0 holds NaN and every other position holds
    its old value; every field outside the fixed list, the time field HJD
    among them, is unchanged at every position. *)
Theorem set_nan_dic_flagged_positions
    (dic : dict) (ids : list ndarray) (flags : ndarray) :
  dic !! "OBJ_ID" = Some (Arr ids) ->
  (1 <= length ids)%nat ->
  dic !! "FLAGS" = Some flags ->
  Np.is_item flags = false ->
  Np.all_cells Np.is_number flags = true ->
  ((1 < length ids)%nat -> Np.is_matrix flags = true) ->
  map_Forall (fun key x => key ∈ nan_keys ->
                Np.same_shape flags x = true /\ Np.all_cells Np.is_float x = true)
             dic ->
  exists dic',
    set_nan_dic dic = Ok dic'
    /\ (forall key x, key ∈ nan_keys -> dic !! key = Some x ->
          exists x',
            dic' !! key = Some x'
            /\ forall p f c,
                Np.get_path p flags = Some (Item f) ->
                Np.get_path p x = Some (Item c) ->
                Np.get_path p x'
                = Some (Item (if Np.flagged f then CNaN else c)))
    /\ (forall key, key ∉ nan_keys -> dic' !! key = dic !! key)
    /\ dic' !! "HJD" = dic !! "HJD".
Proof.
  intros Hid Hn1 Hfl Hit Hnum Hmat Hx.
  destruct (set_nan_dic_mask dic ids flags Hid Hn1 Hfl Hit Hnum Hmat Hx)
    as (dic' & Hd & Hl).
  exists dic'. split; [exact Hd|]. split; [|split].
  - intros key x Hk Hkx. exists (Np.mask flags x). split.
    + rewrite Hl, bool_decide_eq_true_2, Hkx by assumption. reflexivity.
    + intros p f c. apply mask_get_path.
  - intros key Hk. rewrite Hl, bool_decide_eq_false_2 by assumption. reflexivity.
  - rewrite Hl. reflexivity.
Qed.

Lemma set_nan_dic_flagged_positions_witness :
  exists dic',
    set_nan_dic example_single = Ok dic'
    /\ (forall key x, key ∈ nan_keys -> example_single !! key = Some x ->
          exists x',
            dic' !! key = Some x'
            /\ forall p f c,
                Np.get_path p (Np.vec (CInt <$> [0; 1; 0; 1])) = Some (Item f) ->
                Np.get_path p x = Some (Item c) ->
                Np.get_path p x'
                = Some (Item (if Np.flagged f then CNaN else c)))
    /\ (forall key, key ∉ nan_keys -> dic' !! key = example_single !! key)
    /\ dic' !! "HJD" = example_single !! "HJD".
Proof.
  apply (set_nan_dic_flagged_positions example_single [Item (CStr "000046")]
           (Np.vec (CInt <$> [0; 1; 0; 1]))); try reflexivity.
  - simpl. lia.
  - unfold example_single.
    repeat (apply map_Forall_insert_2;
            [first [ intros _; split; reflexivity
                   | intros H; exfalso; apply (bool_decide_pack _) in H;
                     vm_compute in H; exact H ]|]).
    apply map_Forall_empty.
Defined.

(** The example of the specification, for one object and for two. *)
Example set_nan_single_example :
  (fun dic : dict => (dic !! "FLUX", dic !! "HJD")) <$> set_nan_dic example_single
  = Ok (Some (Np.vec [CFloat 1; CNaN; CFloat 3; CNaN]),
        Some (Np.vec (floats [5; 6; 7; 8]))).
Proof. vm_compute. reflexivity. Qed.

Example set_nan_multi_example :
  (fun dic : dict => (dic !! "FLUX", dic !! "HJD")) <$> set_nan_dic example_multi
  = Ok (Some (Np.mat [[CFloat 1; CNaN; CFloat 3; CNaN];
                      [CNaN; CFloat 6; CFloat 7; CFloat 8]]),
        Some (Np.mat [floats [5; 6; 7; 8]; floats [5; 6; 7; 8]])).
Proof. vm_compute. reflexivity. Qed.

(** C4 (counterexample). A flag of -1 is not zero, and the flux at its
    position is kept: the test of the code is [FLAGS > 0]. *)
Lemma set_nan_negative_flag_kept :
  exists dic' flux,
    set_nan_dic example_negative_flag = Ok dic'
    /\ example_negative_flag !! "FLAGS" = Some (Np.vec [CInt (-1)])
    /\ -1 <> 0
    /\ dic' !! "FLUX" = Some flux
    /\ Np.get_path [0%nat] flux = Some (Item (CFloat 1))
    /\ Item (CFloat 1) <> Item CNaN.
Proof.
  exists example_negative_flag, (Np.vec (floats [1])).
  split; [vm_compute; reflexivity|].
  split; [vm_compute; reflexivity|].
  split; [lia|].
  split; [vm_compute; reflexivity|].
  split; [reflexivity | discriminate].
Qed.

(** ** The driver [get] *)

Lemma outcome_foldM_inv {A S} (P : S -> Prop) (f : S -> A -> outcome S)
    (l : list A) :
  (forall s x s', P s -> f s x = Ok s' -> P s') ->
  forall s s', P s -> outcome_foldM f s l = Ok s' -> P s'.
Proof.
  intros Hf. induction l as [|x l IH]; intros s s' Hs H; simpl in H.
  - injection H as <-. exact Hs.
  - ok_inv. eapply IH; [|exact H]. eapply Hf; eassumption.
Qed.

Lemma is_Some_insert (dic : dict) (k k' : string) (a : ndarray) :
  is_Some (dic !! k) -> is_Some (<[k':=a]> dic !! k).
Proof.
  intros H. destruct (decide (k' = k)) as [->|Hne].
  - rewrite lookup_insert_eq. eauto.
  - rewrite lookup_insert_ne by assumption. exact H.
Qed.

Lemma intersect1d_spec (a b : list string) (x : string) :
  x ∈ intersect1d a b <-> x ∈ a /\ x ∈ b.
Proof.
  unfold intersect1d, np_unique_str, np_sort_str.
  rewrite elem_of_remove_dups, merge_sort_Permutation, list_elem_of_filter. tauto.
Qed.

Lemma table_names_spec (t : table) (k : string) :
  k ∈ table_names t <-> is_Some (t !! k).
Proof.
  unfold table_names. rewrite list_elem_of_fmap. split.
  - intros ([k' c] & -> & Hin). apply elem_of_map_to_list in Hin. simpl. eauto.
  - intros [c Hc]. exists (k, c). split; [reflexivity|].
    apply elem_of_map_to_list. exact Hc.
Qed.

(** Reading columns keeps the keys there are and adds the keys read. *)
Lemma read_columns_keeps t subkeys inds (dic dic' : dict) (k : string) :
  read_columns t subkeys inds dic = Ok dic' ->
  is_Some (dic !! k) -> is_Some (dic' !! k).
Proof.
  unfold read_columns. intros H Hk. revert H.
  apply (outcome_foldM_inv (fun d : dict => is_Some (d !! k))); [|exact Hk].
  intros s x s' Hs H. ok_inv. subst s'. apply is_Some_insert, Hs.
Qed.

Lemma read_columns_adds t subkeys inds (dic dic' : dict) (k : string) :
  read_columns t subkeys inds dic = Ok dic' ->
  k ∈ subkeys -> is_Some (dic' !! k).
Proof.
  unfold read_columns. revert dic.
  induction subkeys as [|x l IH]; intros dic H Hk; [inversion Hk|].
  simpl in H. ok_inv. subst.
  apply elem_of_cons in Hk as [->|Hk].
  - revert H.
    apply (outcome_foldM_inv (fun d : dict => is_Some (d !! x))).
    + intros s y s' Hs H. ok_inv. subst s'. apply is_Some_insert, Hs.
    + rewrite lookup_insert_eq. eauto.
  - eapply IH; eassumption.
Qed.

Lemma foldl_insert_keeps {A} (g : A -> string) (h : A -> ndarray) (l : list A)
    (dic : dict) (k : string) :
  is_Some (dic !! k) ->
  is_Some (foldl (fun d x => <[g x:=h x]> d) dic l !! k).
Proof.
  revert dic. induction l as [|x l IH]; intros dic H; [exact H|].
  simpl. apply IH, is_Some_insert, H.
Qed.

Lemma pyfits_get_data_keeps fnames obj_ids ind_objs keys bls_rank ind_time dic :
  pyfits_get_data fnames obj_ids ind_objs keys bls_rank ind_time = Ok dic ->
  is_Some (fs_catalogue fnames !! "OBJ_ID") -> "OBJ_ID" ∈ keys ->
  is_Some (dic !! "OBJ_ID").
Proof.
  unfold pyfits_get_data. intros H Hc Hk. ok_inv.
  rename a into d0, a0 into d1, a1 into d2.
  assert (H0 : is_Some (d0 !! "OBJ_ID")).
  { eapply read_columns_adds; [exact E|].
    apply intersect1d_spec. split; [apply table_names_spec, Hc | exact Hk]. }
  assert (H1 : is_Some (d1 !! "OBJ_ID")) by (eapply read_columns_keeps; eassumption).
  assert (H2 : is_Some (d2 !! "OBJ_ID")).
  { revert E1. unfold pyfits_images. destruct (fs_layout fnames).
    - apply (outcome_foldM_inv (fun d : dict => is_Some (d !! "OBJ_ID"))); [|exact H1].
      intros s x s' Hs Hx. destruct (bool_decide _).
      + unfold pyfits_store_image in Hx. ok_inv. subst s'. apply is_Some_insert, Hs.
      + injection Hx as <-. exact Hs.
    - apply (outcome_foldM_inv (fun d : dict => is_Some (d !! "OBJ_ID"))); [|exact H1].
      intros s x s' Hs Hx. destruct (list_find _ _) as [[? ?]|].
      + unfold pyfits_store_image in Hx. ok_inv. subst s'. apply is_Some_insert, Hs.
      + injection Hx as <-. exact Hs. }
  unfold pyfits_bls in H. destruct (entry_file (fs_bls fnames)) as [f|].
  - ok_inv. rename a0 into d3.
    assert (H3 : is_Some (d3 !! "OBJ_ID")) by (eapply read_columns_keeps; eassumption).
    unfold pyfits_candidates in H. ok_inv.
    destruct (remove_key "SIGMA_XS" _) as [|sk sks]; [injection H as <-; exact H3|].
    destruct a as [|i rest].
    + injection H as <-.
      exact (foldl_insert_keeps (fun key : string => key) (fun _ => _) (sk :: sks) d3
               "OBJ_ID" H3).
    + ok_inv. revert H.
      apply (outcome_foldM_inv (fun d : dict => is_Some (d !! "OBJ_ID"))); [|exact H3].
      intros s x s' Hs Hx. ok_inv. subst s'. apply is_Some_insert, Hs.
  - injection H as <-. exact H2.
Qed.

Lemma fitsio_store_image_keeps allobjects ind_objs ind_time (dic : dict) key data k :
  is_Some (dic !! k) ->
  is_Some ((fitsio_store_image allobjects ind_objs ind_time dic key data).1 !! k).
Proof.
  intros H. unfold fitsio_store_image.
  set (first := if allobjects then _ else _).
  assert (H1 : is_Some (first.1 !! k)).
  { subst first. destruct allobjects.
    - destruct (outcome_mapM _ data); simpl; [apply is_Some_insert|..]; exact H.
    - destruct (fitsio_object_rows data ind_time ind_objs). simpl.
      apply is_Some_insert, H. }
  destruct first as [d r]. simpl in H1.
  destruct r; [|exact H1..].
  destruct (d !! key); [|exact H1].
  destruct (unit_correction key n); simpl; [apply is_Some_insert|..]; exact H1.
Qed.

Lemma fitsio_megafile_images_keeps hdus keys allobjects ind_objs ind_time
    (dic : dict) k :
  is_Some (dic !! k) ->
  is_Some (fitsio_megafile_images hdus keys allobjects ind_objs ind_time dic !! k).
Proof.
  revert dic. induction hdus as [|[hdukey data] hdus IH]; intros dic H; [exact H|].
  simpl. destruct (bool_decide _); [|apply IH, H].
  pose proof (fitsio_store_image_keeps allobjects ind_objs ind_time dic hdukey data k H)
    as Hs.
  destruct (fitsio_store_image _ _ _ _ _ _) as [d r]. simpl in Hs.
  destruct r; [apply IH|..]; exact Hs.
Qed.

Lemma fitsio_get_data_keeps fnames obj_ids ind_objs keys bls_rank ind_time dic :
  fitsio_get_data fnames obj_ids ind_objs keys bls_rank ind_time = Ok dic ->
  is_Some (fs_catalogue fnames !! "OBJ_ID") -> "OBJ_ID" ∈ keys ->
  is_Some (dic !! "OBJ_ID").
Proof.
  unfold fitsio_get_data. intros H Hc Hk. ok_inv.
  rename a into d0, a0 into d1, a1 into d2.
  assert (H0 : is_Some (d0 !! "OBJ_ID")).
  { eapply read_columns_adds; [exact E|].
    apply intersect1d_spec. split; [apply table_names_spec, Hc | exact Hk]. }
  assert (H1 : is_Some (d1 !! "OBJ_ID")) by (eapply read_columns_keeps; eassumption).
  assert (H2 : is_Some (d2 !! "OBJ_ID")).
  { destruct (fs_layout fnames).
    - injection E1 as <-. apply fitsio_megafile_images_keeps, H1.
    - revert E1. unfold fitsio_decomposed_images.
      apply (outcome_foldM_inv (fun d : dict => is_Some (d !! "OBJ_ID"))); [|exact H1].
      intros s x s' Hs Hx. destruct (list_find _ _) as [[? [? data]]|].
      + pose proof (fitsio_store_image_keeps
                      (match ind_objs with All => true | Rows _ => false end)
                      (match ind_objs with
                       | All => all_rows (table_nrows (fs_catalogue fnames))
                       | Rows l => l
                       end)
                      (match ind_time with
                       | All => all_rows (table_nrows (fs_imagelist fnames))
                       | Rows l => l
                       end) s x data "OBJ_ID" Hs) as Hst.
        simpl in Hx.
        destruct (fitsio_store_image _ _ _ _ _ _) as [d r]. simpl in Hst.
        ok_inv. subst s'. exact Hst.
      + injection Hx as <-. exact Hs. }
  unfold fitsio_bls in H. destruct (entry_file (fs_bls fnames)) as [f|].
  - ok_inv. rename a0 into d3.
    assert (H3 : is_Some (d3 !! "OBJ_ID")) by (eapply read_columns_keeps; eassumption).
    unfold fitsio_candidates in H.
    destruct (remove_key "FLAGS"
                (remove_key "OBJ_ID" (intersect1d (table_names (bls_candidates f)) keys)))
      as [|sk sks]; [injection H as <-; exact H3|].
    destruct a as [|i rest].
    + injection H as <-.
      exact (foldl_insert_keeps (fun key : string => key) (fun _ => _) (sk :: sks) d3
               "OBJ_ID" H3).
    + ok_inv. revert H.
      apply (outcome_foldM_inv (fun d : dict => is_Some (d !! "OBJ_ID"))); [|exact H3].
      intros s x s' Hs Hx. ok_inv. subst s'. apply is_Some_insert, Hs.
  - injection H as <-. exact H2.
Qed.

Lemma get_canvas_data_keeps fnames keys (dic dic' : dict) k :
  get_canvas_data fnames keys dic = Ok dic' ->
  is_Some (dic !! k) -> is_Some (dic' !! k).
Proof.
  unfold get_canvas_data. intros H Hk.
  destruct (entry_file (fs_canvas fnames)) as [f|]; [|injection H as <-; exact Hk].
  revert H. apply (outcome_foldM_inv (fun d : dict => is_Some (d !! k))); [|exact Hk].
  intros s x s' Hs Hx. destruct (bool_decide _).
  - ok_inv. subst s'. apply is_Some_insert, Hs.
  - injection Hx as <-. exact Hs.
Qed.

Lemma update_present_keeps f keys (dic dic' : dict) k :
  update_present f keys dic = Ok dic' ->
  is_Some (dic !! k) -> is_Some (dic' !! k).
Proof.
  revert dic. induction keys as [|key keys IH]; intros dic H Hk; simpl in H.
  - injection H as <-. exact Hk.
  - destruct (dic !! key); [|eapply IH; eassumption].
    ok_inv. eapply IH; [exact H|]. apply is_Some_insert, Hk.
Qed.

Lemma set_nan_dic_keeps (dic dic' : dict) k :
  set_nan_dic dic = Ok dic' -> is_Some (dic !! k) -> is_Some (dic' !! k).
Proof.
  unfold set_nan_dic. intros H Hk. ok_inv.
  destruct (_ =? _)%nat.
  - unfold set_nan_single in H. ok_inv. eapply update_present_keeps; eassumption.
  - destruct (_ <? _)%nat; [|injection H as <-; exact Hk].
    unfold set_nan_multi in H. ok_inv. destruct a1 as [|rows]; [discriminate|].
    clear E E1. revert H Hk. generalize 0%nat. revert dic.
    induction rows as [|row rows IH]; intros dic o H Hk; cbn [set_nan_rows] in H.
    + injection H as <-. exact Hk.
    + ok_inv. eapply IH; [exact H|]. eapply update_present_keeps; eassumption.
Qed.

Lemma simplify_dic_keeps (dic dic' : dict) k :
  simplify_dic dic = Ok dic' -> is_Some (dic !! k) -> is_Some (dic' !! k).
Proof.
  intros H [v Hv]. pose proof (simplify_dic_lookup dic dic' H k) as L.
  rewrite Hv in L. destruct L as (v' & _ & ->). eauto.
Qed.

(** What [get_data] does to the list of keys. *)
Lemma get_data_keys fnames obj_ids ind_objs keys bls_rank ind_time fitsreader
    dic keys' w :
  get_data fnames obj_ids ind_objs keys bls_rank ind_time fitsreader
  = Ok (dic, keys', w) ->
  keys' = keys ++
          (if negb (is_empty_selection ind_objs) && negb (is_empty_selection ind_time)
              && negb (bool_decide ("OBJ_ID" ∈ keys))
           then ["OBJ_ID"] else []).
Proof.
  unfold get_data. intros H.
  destruct (is_empty_selection ind_objs);
    [injection H as <- <- <-; simpl; rewrite app_nil_r; reflexivity|].
  destruct (is_empty_selection ind_time);
    [injection H as <- <- <-; simpl; rewrite app_nil_r; reflexivity|].
  ok_inv. injection H as <- <- <-. simpl.
  destruct (bool_decide _); simpl; [rewrite app_nil_r|]; reflexivity.
Qed.

(** When [get_data] fetches, the catalogue identifiers are in the
    dictionary it returns. *)
Lemma get_data_has_objid fnames obj_ids ind_objs keys bls_rank ind_time fitsreader
    dic keys' w :
  get_data fnames obj_ids ind_objs keys bls_rank ind_time fitsreader
  = Ok (dic, keys', w) ->
  is_empty_selection ind_objs = false ->
  is_empty_selection ind_time = false ->
  is_Some (fs_catalogue fnames !! "OBJ_ID") ->
  is_Some (dic !! "OBJ_ID").
Proof.
  unfold get_data. intros H Ho Ht Hc. rewrite Ho, Ht in H. ok_inv.
  injection H as <- <- <-.
  eapply get_canvas_data_keeps; [exact E0|].
  assert (Hk : "OBJ_ID" ∈ (if bool_decide ("OBJ_ID" ∈ keys) then keys
                           else keys ++ ["OBJ_ID"])).
  { destruct (bool_decide_reflect ("OBJ_ID" ∈ keys)); [assumption|].
    apply elem_of_app. right. left. }
  destruct (reader_is_pyfits fitsreader).
  - eapply pyfits_get_data_keeps; eassumption.
  - destruct (reader_is_fitsio fitsreader); [|discriminate E].
    eapply fitsio_get_data_keeps; eassumption.
Qed.

(** A selection that [get_obj_inds] resolves has read the identifier
    column of the catalogue. *)
Lemma get_obj_inds_reads_catalogue fnames obj_ids obj_rows indexing fitsreader r :
  get_obj_inds fnames obj_ids obj_rows indexing fitsreader = Ok r ->
  is_Some (fs_catalogue fnames !! "OBJ_ID").
Proof.
  assert (G : forall sel got,
             get_objids_from_indobjs fnames sel fitsreader = Ok got ->
             is_Some (fs_catalogue fnames !! "OBJ_ID")).
  { unfold get_objids_from_indobjs, column. intros sel got H.
    destruct (reader_is_pyfits fitsreader);
      [|destruct (reader_is_fitsio fitsreader); [|discriminate H]];
      ok_inv; eauto. }
  unfold get_obj_inds. intros H.
  destruct obj_ids as [sel|], obj_rows as [sel'|]; try discriminate H; ok_inv.
  - unfold get_indobjs_from_objids, catalogue_objids, column in E0.
    destruct (reader_is_pyfits fitsreader);
      [|destruct (reader_is_fitsio fitsreader); [|discriminate E0]];
      ok_inv; eauto.
  - eapply G; eassumption.
  - eapply G; eassumption.
Qed.

Lemma is_Some_delete (dic : dict) (k k' : string) :
  k' <> k -> is_Some (dic !! k) -> is_Some (delete k' dic !! k).
Proof. intros Hne H. rewrite lookup_delete_ne by assumption. exact H. Qed.

Lemma is_Some_if (b : bool) (x y : dict) (k : string) :
  is_Some (x !! k) -> is_Some (y !! k) -> is_Some ((if b then x else y) !! k).
Proof. destruct b; auto. Qed.

Lemma convert_if_requested_keeps rad2deg key keys (dic dic' : dict) k :
  convert_if_requested rad2deg key keys dic = Ok dic' ->
  is_Some (dic !! k) -> is_Some (dic' !! k).
Proof.
  unfold convert_if_requested. intros H Hk. destruct (bool_decide _).
  - ok_inv. subst dic'. apply is_Some_insert, Hk.
  - injection H as <-. exact Hk.
Qed.

Lemma bool_decide_app_other (a : string) (l l' : list string) :
  a ∉ l' -> bool_decide (a ∈ l ++ l') = bool_decide (a ∈ l).
Proof. intros H. apply bool_decide_ext. rewrite elem_of_app. tauto. Qed.

Lemma not_elem_of_singleton_str (a b : string) : a <> b -> a ∉ [b].
Proof. intros H Hin. apply list_elem_of_singleton in Hin. contradiction. Qed.

(** C6 (as amended). Whenever [get] returns a dictionary and the time
    selection is not empty, the dictionary holds the key OBJ_ID, whether
    the caller asked for it or not: the identifiers that [get_data] adds to
    the fetch are not taken out again. *)
Theorem get_result_keeps_objid (rad2deg : Q -> Q) (fieldname ngts_version : string)
    (keys : list string) (obj_id obj_row : option selector) (ind_time : selection)
    (bls_rank : Z) (indexing fitsreader : string) (simplify : bool)
    (fnames : option fileset) (set_nan : bool)
    (dic : dict) (keys' w : list string) :
  get rad2deg fieldname ngts_version keys obj_id obj_row ind_time bls_rank
      indexing fitsreader simplify fnames set_nan = Ok (Some dic, keys', w) ->
  is_empty_selection ind_time = false ->
  is_Some (dic !! "OBJ_ID").
Proof.
  unfold get. intros H Ht. destruct fnames as [fnames|]; [|discriminate H].
  destruct (get_obj_inds fnames obj_id obj_row indexing fitsreader)
    as [[[ind_objs obj_ids] w1]| |] eqn:E; try discriminate H.
  bind_simpl in H.
  pose proof (get_obj_inds_reads_catalogue _ _ _ _ _ _ E) as Hc.
  destruct (is_empty_selection ind_objs) eqn:Ho; [discriminate H|].
  cbn [negb] in H.
  match type of H with
  | context [get_data ?a ?b ?c ?d ?e ?f ?g] =>
      destruct (get_data a b c d e f g) as [[[d0 keys1] w2]| |] eqn:E0;
      try discriminate H
  end.
  bind_simpl in H.
  pose proof (get_data_has_objid _ _ _ _ _ _ _ _ _ _ E0 Ho Ht Hc) as H0.
  ok_inv. rename a into d1, a0 into d2, a1 into d3, a2 into d4.
  assert (H1 : is_Some (d1 !! "OBJ_ID")).
  { destruct (bool_decide ("SYSREM_FLUX3" ∈ keys1) && in_pipeline fnames);
      [|injection E1 as <-; exact H0].
    ok_inv. rewrite <- E1. destruct (bool_decide ("FLUX" ∈ keys ++ ["OBJ_ID"])).
    - apply is_Some_insert, H0.
    - apply is_Some_delete; [discriminate|]. apply is_Some_insert, H0. }
  assert (H2 : is_Some (d2 !! "OBJ_ID")).
  { destruct set_nan; [|injection E2 as <-; exact H1].
    eapply set_nan_dic_keeps; eassumption. }
  set (d2' := if _ && _ then delete "FLAGS" d2 else d2) in E3.
  assert (H3 : is_Some (d2' !! "OBJ_ID")).
  { subst d2'. apply is_Some_if; [apply is_Some_delete; [discriminate|]|]; exact H2. }
  clearbody d2'.
  assert (H4 : is_Some (d3 !! "OBJ_ID")).
  { destruct (negb (in_pipeline fnames) && bool_decide (ngts_version ∈ legacy_versions));
      [|injection E3 as <-; exact H3].
    ok_inv. eapply convert_if_requested_keeps; [exact E3|].
    eapply convert_if_requested_keeps; eassumption. }
  assert (H5 : is_Some (d4 !! "OBJ_ID")).
  { destruct simplify; [|injection E4 as <-; exact H4].
    eapply simplify_dic_keeps; eassumption. }
  injection H as <- _ _. apply is_Some_insert, is_Some_insert, H5.
Qed.

Lemma get_result_keeps_objid_witness :
  is_Some ((<["OBJ_ID":=Item (CStr "000046")]>
              (<["RA":=Item (CFloat (inject_Z 2))]>
                 (<["FIELDNAME":=Item (CStr "NG0304-1115")]>
                    (<["NGTS_VERSION":=Item (CStr "CYCLE1706")]> (∅ : dict)))))
           !! "OBJ_ID").
Proof.
  apply (get_result_keeps_objid (fun q => q) "NG0304-1115" "CYCLE1706" ["RA"]
           (Some (SInt 46)) None All 1 "fits" "fitsio" true (Some example_files) false
           _ ["RA"; "OBJ_ID"] []); vm_compute; reflexivity.
Defined.

(** C6 (counterexample). The caller asks for RA only, for the object 46;
    the dictionary returned holds OBJ_ID as well. *)
Lemma get_returns_objid_unrequested :
  exists dic : dict,
    get (fun q => q) "NG0304-1115" "CYCLE1706" ["RA"] (Some (SInt 46)) None All 1
        "fits" "fitsio" true (Some example_files) false
    = Ok (Some dic, ["RA"; "OBJ_ID"], [])
    /\ ("OBJ_ID" ∉ ["RA"])
    /\ dic !! "OBJ_ID" = Some (Item (CStr "000046")).
Proof.
  eexists. split; [vm_compute; reflexivity|].
  split; [apply not_elem_of_singleton_str; discriminate|].
  vm_compute; reflexivity.
Qed.

Lemma keys_after_appends (keys : list string) (c set_nan : bool) :
  (if set_nan && negb (bool_decide ("FLAGS" ∈ keys ++ ["OBJ_ID"]))
   then (if c then keys ++ ["FLUX"] else keys) ++ ["FLAGS"]
   else if c then keys ++ ["FLUX"] else keys)
  = keys ++ (if c then ["FLUX"] else [])
         ++ (if set_nan && negb (bool_decide ("FLAGS" ∈ keys)) then ["FLAGS"] else []).
Proof.
  rewrite bool_decide_app_other by (apply not_elem_of_singleton_str; discriminate).
  destruct c, (set_nan && _); simpl; rewrite ?app_nil_r, <- ?app_assoc; reflexivity.
Qed.

Lemma objid_after_appends (keys : list string) (c d : bool) :
  bool_decide ("OBJ_ID" ∈ keys ++ (if c then ["FLUX"] else [])
                                ++ (if d then ["FLAGS"] else []))
  = bool_decide ("OBJ_ID" ∈ keys).
Proof.
  apply bool_decide_ext. rewrite !elem_of_app. split; [|tauto].
  intros [H|[H|H]]; [exact H|exfalso..]; destruct c, d;
    repeat (apply elem_of_cons in H as [H|H]; [discriminate H|]);
    inversion H.
Qed.

(** C10 (as amended). What [get] leaves in the list of keys of the
    caller, when a file set is there: the keys passed, then FLUX when
    SYSREM_FLUX3 is among them and the file set is the megafile of the
    pipeline, then FLAGS when [set_nan] is set and FLAGS is not among them,
    then OBJ_ID when it is not among them and the fetch is reached, that
    is when a dictionary is returned and the time selection is not
    empty. *)
Theorem get_mutates_keys (rad2deg : Q -> Q) (fieldname ngts_version : string)
    (keys : list string) (obj_id obj_row : option selector) (ind_time : selection)
    (bls_rank : Z) (indexing fitsreader : string) (simplify : bool)
    (fnames : fileset) (set_nan : bool)
    (res : option dict) (keys' w : list string) :
  get rad2deg fieldname ngts_version keys obj_id obj_row ind_time bls_rank
      indexing fitsreader simplify (Some fnames) set_nan = Ok (res, keys', w) ->
  keys' = keys
          ++ (if bool_decide ("SYSREM_FLUX3" ∈ keys) && in_pipeline fnames
              then ["FLUX"] else [])
          ++ (if set_nan && negb (bool_decide ("FLAGS" ∈ keys))
              then ["FLAGS"] else [])
          ++ (if bool_decide (is_Some res) && negb (is_empty_selection ind_time)
                 && negb (bool_decide ("OBJ_ID" ∈ keys))
              then ["OBJ_ID"] else []).
Proof.
  unfold get. intros H.
  destruct (get_obj_inds fnames obj_id obj_row indexing fitsreader)
    as [[[ind_objs obj_ids] w1]| |] eqn:E; try discriminate H.
  bind_simpl in H. rewrite keys_after_appends in H.
  destruct (is_empty_selection ind_objs) eqn:Ho; cbn [negb] in H.
  - injection H as <- <- _. simpl. rewrite app_nil_r. reflexivity.
  - match type of H with
    | context [get_data ?a ?b ?c ?d ?e ?f ?g] =>
        destruct (get_data a b c d e f g) as [[[d0 keys1] w2]| |] eqn:E0;
        try discriminate H
    end.
    bind_simpl in H. apply get_data_keys in E0.
    rewrite Ho, objid_after_appends in E0. cbn [negb andb] in E0.
    ok_inv. injection H as <- <- _.
    rewrite (bool_decide_eq_true_2 (is_Some (Some _))) by (eexists; reflexivity). cbn [andb].
    rewrite E0, <- !app_assoc. reflexivity.
Qed.

Lemma get_mutates_keys_witness :
  ["RA"; "FLUX3"; "FLAGS"; "OBJ_ID"]
  = ["RA"; "FLUX3"]
    ++ (if bool_decide ("SYSREM_FLUX3" ∈ ["RA"; "FLUX3"]) && in_pipeline example_files
        then ["FLUX"] else [])
    ++ (if true && negb (bool_decide ("FLAGS" ∈ ["RA"; "FLUX3"]))
        then ["FLAGS"] else [])
    ++ (if bool_decide (is_Some (Some example_result))
           && negb (is_empty_selection All)
           && negb (bool_decide ("OBJ_ID" ∈ ["RA"; "FLUX3"]))
        then ["OBJ_ID"] else []).
Proof.
  apply (get_mutates_keys (fun q => q) "NG0304-1115" "CYCLE1706" ["RA"; "FLUX3"]
           (Some (SInt 46)) None All 1 "fits" "pyfits" false example_files true
           (Some example_result) ["RA"; "FLUX3"; "FLAGS"; "OBJ_ID"] []).
  vm_compute. reflexivity.
Defined.

(** C10 (counterexample). OBJ_ID is not among the keys passed, and it is
    not appended: no object of the selection is in the catalogue, so the
    fetch is not reached. *)
Lemma get_leaves_keys_without_objid :
  get (fun q => q) "NG0304-1115" "CYCLE1706" ["RA"] (Some (SInt 5)) None All 1
      "fits" "fitsio" true (Some example_files) false
  = Ok (None, ["RA"], ["obj_id 000005 not found in fits file."])
  /\ ("OBJ_ID" ∉ ["RA"]).
Proof.
  split; [vm_compute; reflexivity|].
  apply not_elem_of_singleton_str; discriminate.
Qed.
